(** * siris_show: structuring of captured command output

    A shallow embedding of [roles/discover/library/siris_show_BACKUP.py].
    The module captures the text a network device prints for one command
    and hands it to the TextFSM [clitable] library; what comes back is
    turned into a list of dictionaries, and when the library reports a
    [CliTableError] the text itself is returned instead.

    Python values are an inductive type with dictionaries as [gmap]s, the
    exceptions and the two ways an Ansible module ends ([exit_json],
    [fail_json]) are outcomes of a state-and-error monad, and the
    [CliTable] object, which [ParseCmd] fills in place, lives in a heap. *)

From Stdlib Require Import Ascii String.
From stdpp Require Import gmap strings list fin_maps.

#[local] Set Warnings "-register-all".
#[local] Open Scope string_scope.
#[local] Open Scope list_scope.

(** ** Python byte strings *)

Module Str.

(** [str.lower] on a byte string: the letters A-Z move to a-z, every
    other byte stays. *)
Definition lower_ascii (c : ascii) : ascii :=
  let n := nat_of_ascii c in
  if (65 <=? n)%nat && (n <=? 90)%nat then ascii_of_nat (n + 32) else c.

Fixpoint lower (s : string) : string :=
  match s with
  | EmptyString => EmptyString
  | String c s' => String (lower_ascii c) (lower s')
  end.

(** [s.endswith(suffix)] *)
Definition endswith (s suffix : string) : bool :=
  let n := String.length s in
  let m := String.length suffix in
  (m <=? n)%nat && String.eqb (String.substring (n - m) m s) suffix.

(** [s.rstrip(c)] for a one-character argument: every trailing [c] goes. *)
Fixpoint rstrip (c : ascii) (s : string) : string :=
  match s with
  | EmptyString => EmptyString
  | String a s' =>
      match rstrip c s' with
      | EmptyString => if Ascii.eqb a c then EmptyString else String a EmptyString
      | t => String a t
      end
  end.

(** [s.split(c)[0]]: the text before the first [c], all of [s] when
    there is none. *)
Fixpoint split_head (c : ascii) (s : string) : string :=
  match s with
  | EmptyString => EmptyString
  | String a s' => if Ascii.eqb a c then EmptyString else String a (split_head c s')
  end.

End Str.

(** ** Python values *)

Inductive pyval :=
  | PNone
  | PBool (b : bool)
  | PStr (s : string)
  | PList (l : list pyval)
  | PDict (d : gmap string pyval).

(** Truth value of an object, as [if x:], [not x] and [x or y] see it. *)
Definition truthy (v : pyval) : bool :=
  match v with
  | PNone => false
  | PBool b => b
  | PStr s => negb (String.eqb s "")
  | PList l => match l with [] => false | _ => true end
  | PDict d => negb (bool_decide (d = ∅))
  end.

Definition py_or (a b : pyval) : pyval := if truthy a then a else b.

Definition opt_str (o : option string) : pyval :=
  match o with Some s => PStr s | None => PNone end.

(** ** Exceptions and outcomes *)

(** The exception classes that can reach this module.  [CliTableError] and
    [IndexTableError] are the two classes of [clitable]; [TextFSMError] and
    [TextFSMTemplateError] are the classes of the [textfsm] engine below it,
    which derive from [textfsm.Error], not from [CliTableError]. *)
Inductive exn :=
  | CliTableError
  | IndexTableError
  | TextFSMError
  | TextFSMTemplateError
  | IndexError
  | KeyError
  | TypeError
  | IOError
  | UnboundLocalError
  | ValueError.

#[global] Instance exn_eq_dec : EqDecision exn.
Proof. solve_decision. Defined.

(** What the clause [except CliTableError] catches. *)
Definition is_CliTableError (e : exn) : bool :=
  match e with CliTableError => true | _ => false end.

(** What the clause [except IOError] catches. *)
Definition is_IOError (e : exn) : bool :=
  match e with IOError => true | _ => false end.

(** The two calls that end an Ansible module. *)
Inductive exit :=
  | ExitJson (results : gmap string pyval)
  | FailJson (msg : string).

Inductive result (A : Type) :=
  | Ok (a : A)
  | Err (e : exn).
Arguments Ok {A} a.
Arguments Err {A} e.

(** ** Parameters without a declared type *)

(** [port], [delay] and [global_delay_factor] have no type in the argument
    specification: they reach the module as the playbook wrote them, a
    number or a string. *)
Inductive raw :=
  | RInt (z : Z)
  | RStr (s : string).

(** Truth value of such a parameter: the number 0 and the empty string are
    false, so the string ['0'] is true. *)
Definition raw_truthy (r : raw) : bool :=
  match r with
  | RInt z => negb (z =? 0)%Z
  | RStr s => negb (String.eqb s "")
  end.

Module Int.

(** The characters [str.strip] removes: space, tab, line feed, vertical
    tab, form feed, carriage return. *)
Definition is_space (c : ascii) : bool :=
  let n := nat_of_ascii c in
  (n =? 32)%nat || ((9 <=? n)%nat && (n <=? 13)%nat).

Fixpoint lstrip (l : list ascii) : list ascii :=
  match l with
  | c :: l' => if is_space c then lstrip l' else l
  | [] => []
  end.

Definition strip (l : list ascii) : list ascii :=
  rev (lstrip (rev (lstrip l))).

(** The value of a run of decimal digits, [None] when another character
    is among them. *)
Fixpoint digits (acc : Z) (l : list ascii) : option Z :=
  match l with
  | [] => Some acc
  | c :: l' =>
      let n := nat_of_ascii c in
      if (48 <=? n)%nat && (n <=? 57)%nat
      then digits (10 * acc + Z.of_nat (n - 48))%Z l'
      else None
  end.

(** [int(s)] on a byte string: blanks around it are dropped, one sign may
    lead, and at least one decimal digit must follow, nothing else. *)
Definition of_string (s : string) : option Z :=
  match strip (list_ascii_of_string s) with
  | [] => None
  | c :: l =>
      if Ascii.eqb c "-" then
        match l with [] => None | _ => Z.opp <$> digits 0 l end
      else if Ascii.eqb c "+" then
        match l with [] => None | _ => digits 0 l end
      else digits 0 (c :: l)
  end.

End Int.

(** [int(r)]: a number is itself, a string is read as a decimal number or
    raises [ValueError]. *)
Definition int (r : raw) : result Z :=
  match r with
  | RInt z => Ok z
  | RStr s => match Int.of_string s with Some z => Ok z | None => Err ValueError end
  end.

(** ** The CliTable object and the library behind it *)

(** The attributes of a [clitable.CliTable] the module depends on: the two
    constructor arguments, the header row and the data rows that iterating
    the table yields.  A row value is a string, or a list of strings for a
    [List] variable. *)
Record CliTable := mkCliTable {
  ct_index_file : string;
  ct_template_dir : string;
  header : list string;
  rows : list (list pyval)
}.

(** The [clitable] package is imported, it is no part of this module.  It
    enters as a parameter: what the constructor answers for an index file
    and a template directory, and what [ParseCmd] answers for a table built
    from them, a text and the attributes [Command] and [Platform]: a header
    with rows, or an exception. *)
Record Library := mkLibrary {
  lib_init : string -> string -> result unit;
  lib_parse : string -> string -> pyval -> option string -> string ->
              result (list string * list (list pyval))
}.

(** ** State: heap and trace *)

Inductive event :=
  | EvIsFile (path : string)
  | EvCliTable (index_file template_dir : string)
  | EvParseCmd (rawoutput : pyval) (command : option string) (platform : string)
  | EvConnect (device_type : string) (ip : option string) (port : Z)
  | EvEnable
  | EvSendCommand (command : string)
  | EvSendConfig (lines : list string)
  | EvCommando (devices : list string) (command : option string)
  | EvOpen (path : string) (mode : string).

Definition ref := nat.

Record state := mkState {
  heap : list CliTable;
  trace : list event
}.

Inductive res (A : Type) :=
  | Ret (a : A)
  | Raise (e : exn)
  | Exit (x : exit).
Arguments Ret {A} a.
Arguments Raise {A} e.
Arguments Exit {A} x.

Definition M (A : Type) : Type := state -> res A * state.

#[global] Instance M_ret : MRet M := fun A a st => (Ret a, st).

#[global] Instance M_bind : MBind M := fun A B f m st =>
  match m st with
  | (Ret a, st') => f a st'
  | (Raise e, st') => (Raise e, st')
  | (Exit x, st') => (Exit x, st')
  end.

Definition raise {A} (e : exn) : M A := fun st => (Raise e, st).
Definition stop {A} (x : exit) : M A := fun st => (Exit x, st).

Definition lift {A} (r : result A) : M A :=
  match r with Ok a => mret a | Err e => raise e end.

(** [try: body except E: handler], with [catches] the test [isinstance(e, E)].
    [exit_json] and [fail_json] leave through [SystemExit], which no
    [except] clause of the module catches. *)
Definition try_except {A} (body : M A) (catches : exn -> bool) (handler : M A) : M A :=
  fun st =>
    match body st with
    | (Raise e, st') => if catches e then handler st' else (Raise e, st')
    | r => r
    end.

Definition log (ev : event) : M unit :=
  fun st => (Ret tt, mkState (heap st) (trace st ++ [ev])).

Definition alloc (o : CliTable) : M ref :=
  fun st => (Ret (length (heap st)), mkState (heap st ++ [o]) (trace st)).

(** Reading an attribute of the object behind a reference.  References only
    come from [alloc], so the second case is never taken by the module. *)
Definition load (r : ref) : M CliTable :=
  fun st =>
    match heap st !! r with
    | Some o => (Ret o, st)
    | None => (Raise UnboundLocalError, st)
    end.

Definition store (r : ref) (o : CliTable) : M unit :=
  fun st => (Ret tt, mkState (<[r := o]> (heap st)) (trace st)).

(** [l[i]] on a list. *)
Definition getitem {A} (l : list A) (i : nat) : M A :=
  match l !! i with
  | Some x => mret x
  | None => raise IndexError
  end.

(** [d[key]] on an object: a dictionary answers for a key it holds and
    raises [KeyError] otherwise.  The dictionaries here have string keys,
    so [None] is never among them.  An object that is no dictionary cannot
    be indexed by a command. *)
Definition dict_getitem (d : pyval) (key : option string) : M pyval :=
  match d with
  | PDict m =>
      match key with
      | Some k => match m !! k with Some v => mret v | None => raise KeyError end
      | None => raise KeyError
      end
  | _ => raise TypeError
  end.

(** ** Module parameters *)

(** [module.params] once [AnsibleModule] has applied the argument
    specification: defaults are filled in and an absent parameter is
    [None]; [port], [delay] and [global_delay_factor] are still as they
    were written. *)
Record params := mkParams {
  connection : string;
  platform : string;
  file : option string;
  local_file : option string;
  index_file : string;
  template_dir : string;
  use_templates : bool;
  trigger_device_list : option (list string);
  command : option string;
  commands_file : option string;
  host : option string;
  port : option raw;
  delay : raw;
  global_delay_factor : raw;
  username : option string;
  password : option string;
  secret : option string;
  use_keys : bool;
  key_file : option string;
  optional_args : gmap string pyval
}.

(** ** The functions of the module *)

Section Module.

Variable lib : Library.

(** [clitable.CliTable(index_file, template_dir)]: the constructor reads
    the index and may raise; the new table is empty. *)
Definition new_CliTable (index_file template_dir : string) : M ref :=
  log (EvCliTable index_file template_dir);;
  lift (lib_init lib index_file template_dir);;
  alloc (mkCliTable index_file template_dir [] []).

(** [cli_table.ParseCmd(rawoutput, attrs)]: fills the table in place, or
    raises. *)
Definition ParseCmd (cli_table : ref) (rawoutput : pyval)
    (Command : option string) (Platform : string) : M unit :=
  log (EvParseCmd rawoutput Command Platform);;
  o ← load cli_table;
  '(h, rs) ← lift (lib_parse lib (ct_index_file o) (ct_template_dir o)
                     rawoutput Command Platform);
  store cli_table (mkCliTable (ct_index_file o) (ct_template_dir o) h rs).

(** The inner loop of [clitable_to_dict]:
    [for index, element in enumerate(row):
         temp_dict[cli_table.header[index].lower()] = element] *)
Fixpoint fill_dict (cli_table : ref) (index : nat) (row : list pyval)
    (temp_dict : gmap string pyval) : M (gmap string pyval) :=
  match row with
  | [] => mret temp_dict
  | element :: row' =>
      o ← load cli_table;
      h ← getitem (header o) index;
      fill_dict cli_table (S index) row' (<[Str.lower h := element]> temp_dict)
  end.

(** The outer loop: [for row in cli_table: ...; objs.append(temp_dict)] *)
Fixpoint each_row (cli_table : ref) (rs : list (list pyval))
    (objs : list pyval) : M (list pyval) :=
  match rs with
  | [] => mret objs
  | row :: rs' =>
      temp_dict ← fill_dict cli_table 0 row ∅;
      each_row cli_table rs' (objs ++ [PDict temp_dict])
  end.

Definition clitable_to_dict (cli_table : ref) : M pyval :=
  o ← load cli_table;
  objs ← each_row cli_table (rows o) [];
  mret (PList objs).

Definition get_structured_data (rawoutput : pyval) (module : params) : M pyval :=
  let index_file := index_file module in
  let template_dir := template_dir module in
  cli_table ← new_CliTable index_file template_dir;
  let Command := command module in
  let Platform := platform module in
  try_except
    (ParseCmd cli_table rawoutput Command Platform;;
     clitable_to_dict cli_table)
    is_CliTableError
    (mret (PList [rawoutput])).

(** The loop of [parse_raw_output] over [rawoutput.items()], the items in
    the order in which the dictionary yields them ([map_to_list]). *)
Fixpoint each_device (items : list (string * pyval)) (module : params)
    (structured_data_response_list : list pyval) : M (list pyval) :=
  match items with
  | [] => mret structured_data_response_list
  | (device, command_output) :: items' =>
      raw_txt ← dict_getitem command_output (command module);
      sd ← get_structured_data raw_txt module;
      let temp := PDict (<["device" := PStr device]> (<["response" := sd]> ∅)) in
      each_device items' module (structured_data_response_list ++ [temp])
  end.

Definition parse_raw_output (rawoutput : pyval) (module : params) : M pyval :=
  match rawoutput with
  | PDict d =>
      l ← each_device (map_to_list d) module [];
      mret (py_or (PDict ∅) (PList l))
  | _ =>
      structured_data ← get_structured_data rawoutput module;
      mret (py_or structured_data (PList []))
  end.

End Module.

(** ** The world around [main] *)

(** Everything [main] asks of its surroundings: which packages could be
    imported, the file system, the netmiko session and the trigger run.
    Each call answers with a value or with an exception. *)
Record World := mkWorld {
  HAS_TEXTFSM : bool;
  HAS_NETMIKO : bool;
  HAS_TRIGGER : bool;
  isfile : string -> bool;
  file_read : string -> result string;
  file_readlines : string -> result (list string);
  file_write : string -> pyval -> result unit;
  ConnectHandler : string -> option string -> Z -> option string -> option string ->
                   option string -> bool -> option string -> Z -> result unit;
  enable : result unit;
  send_command_timing : string -> Z -> Z -> result string;
  send_config_set : list string -> Z -> Z -> result string;
  Commando_run : list string -> option string -> option string -> option string ->
                 gmap string pyval -> result pyval
}.

Definition truthy_str (o : option string) : bool := truthy (opt_str o).

Definition truthy_list {A} (o : option (list A)) : bool :=
  match o with Some (_ :: _) => true | _ => false end.

Definition truthy_raw (o : option raw) : bool :=
  match o with Some r => raw_truthy r | None => false end.

(** The locals of [main] that its later parts read: the device type, and
    the port, the delay and the global delay factor as numbers. *)
Record locals := mkLocals {
  loc_device_type : string;
  loc_port : Z;
  loc_delay : Z;
  loc_global_delay_factor : Z
}.

Definition str_in (s : string) (l : list string) : bool := bool_decide (s ∈ l).

Section Main.

Variable lib : Library.
Variable w : World.

Definition fail_json {A} (msg : string) : M A := stop (FailJson msg).
Definition exit_json {A} (results : gmap string pyval) : M A := stop (ExitJson results).

Definition when (b : bool) (m : M unit) : M unit := if b then m else mret tt.

Definition os_path_isfile (path : string) : M bool :=
  log (EvIsFile path);; mret (isfile w path).

(** Lines 316-365: the checks on the parameters, with the numbers read by
    [int] on the way ([delay] and [global_delay_factor] at lines 334-335,
    [port] at line 353, each of which may raise [ValueError]); the locals
    are what they leave behind. *)
Definition validate (module : params) : M locals :=
  when (negb (HAS_TEXTFSM w)) (fail_json "This module requires TextFSM");;
  let connection := connection module in
  let platform := platform module in
  let device_type := Str.split_head "-" platform in
  let raw_file := file module in
  delay ← lift (int (delay module));
  global_delay_factor ← lift (int (global_delay_factor module));
  let trigger_device_list := trigger_device_list module in
  let host := host module in
  when (str_in connection ["ssh"; "netmiko_ssh"; "netmiko_telnet"; "telnet"]
        && negb (truthy_str host))
    (fail_json "specify host when connection=ssh/netmiko_ssh/netmiko_telnet");;
  when (str_in connection ["netmiko_telnet"; "telnet"]
        && negb (String.eqb platform "cisco_ios"))
    (fail_json "only cisco_ios supports telnet/netmiko_telnet connection");;
  let device_type :=
    if String.eqb platform "cisco_ios" && str_in connection ["netmiko_telnet"; "telnet"]
    then "cisco_ios_telnet" else device_type in
  port ←
    match port module with
    | Some r =>
        if raw_truthy r then lift (int r)
        else mret (if String.eqb device_type "cisco_ios_telnet" then 23%Z else 22%Z)
    | None => mret (if String.eqb device_type "cisco_ios_telnet" then 23%Z else 22%Z)
    end;
  when (negb (String.eqb connection "offline"))
    (when (negb (truthy_str host) && negb (truthy_list trigger_device_list))
       (fail_json "specify host or trigger_device_list based on connection"));;
  when (String.eqb connection "offline" && negb (truthy_str raw_file))
    (fail_json "specifiy file if using connection=offline");;
  mret (mkLocals device_type port delay global_delay_factor).

(** Lines 367-375.  The value of [template_dir.rstrip('/')] is computed
    and dropped: strings are immutable and the statement assigns nothing. *)
Definition check_templates (module : params) : M unit :=
  let index_file := index_file module in
  let template_dir := template_dir module in
  let raw_file := file module in
  when (Str.endswith template_dir "/")
    (_ ← mret (Str.rstrip "/" template_dir); mret tt);;
  when (use_templates module)
    (found ← os_path_isfile (template_dir +:+ "/" +:+ index_file);
     when (negb found) (fail_json "could not find or read index file");;
     match raw_file with
     | Some f =>
         when (truthy_str raw_file)
           (found ← os_path_isfile f;
            when (negb found) (fail_json "could not read raw text file"))
     | None => mret tt
     end).

(** [open(path, mode)] *)
Definition open (path mode : string) : M unit := log (EvOpen path mode).

(** Lines 400-407: the commands of [commands_file] sent as one set, under
    [try: ... except IOError]. [rawtxt] keeps its value when there is no
    such file. *)
Definition send_commands_file (module : params) (delay : Z) (rawtxt : pyval)
    : M pyval :=
  let commands_file := commands_file module in
  try_except
    (match commands_file with
     | Some cf =>
         if truthy_str commands_file then
           found ← os_path_isfile cf;
           if found : bool then
             open cf "r";;
             lines ← lift (file_readlines w cf);
             log (EvSendConfig lines);;
             out ← lift (send_config_set w lines delay 5000);
             mret (PStr out)
           else mret rawtxt
         else mret rawtxt
     | None => mret rawtxt
     end)
    is_IOError
    (fail_json ("Unable to locate: " +:+ default "None" commands_file)).

(** Lines 424-427: the trigger run over [trigger_device_list]; [rawtxt]
    keeps its value. *)
Definition run_device_list (module : params) (kwargs : gmap string pyval)
    (rawtxt : pyval) : M (pyval * option pyval) :=
  let trigger_device_list := trigger_device_list module in
  if truthy_list trigger_device_list then
    log (EvCommando (default [] trigger_device_list) (command module));;
    results ← lift (Commando_run w (default [] trigger_device_list) (command module)
                      (username module) (password module) kwargs);
    mret (rawtxt, Some results)
  else mret (rawtxt, None).

(** Lines 377-431: the text of the device, and the [commando] object
    when the trigger branch bound it ([None] while it is unbound). *)
Definition capture (module : params) (loc : locals) : M (pyval * option pyval) :=
  let device_type := loc_device_type loc in
  let port := loc_port loc in
  let delay := loc_delay loc in
  let global_delay_factor := loc_global_delay_factor loc in
  let connection := connection module in
  let command := command module in
  let host := host module in
  let rawtxt := PStr "" in
  if str_in connection ["ssh"; "netmiko_ssh"; "netmiko_telnet"; "telnet"] then
    when (negb (HAS_NETMIKO w)) (fail_json "This module requires Netmiko.");;
    log (EvConnect device_type host port);;
    lift (ConnectHandler w device_type host port (username module) (password module)
            (secret module) (use_keys module) (key_file module)
            global_delay_factor);;
    when (truthy_str (secret module)) (log EvEnable;; lift (enable w));;
    match command with
    | Some c =>
        if truthy_str command then
          log (EvSendCommand c);;
          out ← lift (send_command_timing w c delay 5000);
          mret (PStr out, None)
        else
          rawtxt ← send_commands_file module delay rawtxt;
          mret (rawtxt, None)
    | None =>
        rawtxt ← send_commands_file module delay rawtxt;
        mret (rawtxt, None)
    end
  else if String.eqb connection "trigger_ssh" then
    when (negb (HAS_TRIGGER w)) (fail_json "This module requires trigger.");;
    let kwargs : gmap string pyval :=
      <["force_cli" := PBool true]> (<["production_only" := PBool false]> ∅) in
    let kwargs :=
      if truthy (PDict (optional_args module)) then optional_args module ∪ kwargs
      else kwargs in
    match host with
    | Some h =>
        if truthy_str host then
          log (EvCommando [h] command);;
          results ← lift (Commando_run w [h] command (username module)
                            (password module) kwargs);
          by_host ← dict_getitem results (Some h);
          rawtxt ← dict_getitem by_host command;
          mret (rawtxt, Some results)
        else run_device_list module kwargs rawtxt
    | None => run_device_list module kwargs rawtxt
    end
  else if String.eqb connection "offline" then
    match file module with
    | Some raw_file =>
        open raw_file "r";;
        data ← lift (file_read w raw_file);
        mret (PStr data, None)
    | None => raise TypeError
    end
  else mret (rawtxt, None).

(** Lines 433-435. *)
Definition save_local (module : params) (rawtxt : pyval) : M unit :=
  match local_file module with
  | Some lf =>
      when (truthy_str (local_file module))
        (open lf "w";; lift (file_write w lf rawtxt))
  | None => mret tt
  end.

(** [commando.results]: the name is unbound unless the trigger branch ran. *)
Definition commando_results (commando : option pyval) : M pyval :=
  match commando with
  | Some results => mret results
  | None => raise UnboundLocalError
  end.

(** Lines 437-453. *)
Definition respond (module : params) (rawtxt : pyval) (commando : option pyval)
    : M unit :=
  let results : gmap string pyval :=
    <["response_list" := PList []]> (<["response" := PList []]> ∅) in
  results ←
    (if use_templates module then
       if truthy rawtxt then
         r ← parse_raw_output lib rawtxt module;
         mret (<["response" := r]> results)
       else if truthy_list (trigger_device_list module) then
         cr ← commando_results commando;
         r ← parse_raw_output lib cr module;
         mret (<["response_list" := r]> results)
       else mret results
     else if truthy rawtxt then
       mret (<["response" := PList [rawtxt]]> results)
     else if truthy_list (trigger_device_list module) then
       cr ← commando_results commando;
       mret (<["response" := PList [cr]]> results)
     else mret results);
  exit_json results.

Definition main (module : params) : M unit :=
  loc ← validate module;
  check_templates module;;
  '(rawtxt, commando) ← capture module loc;
  save_local module rawtxt;;
  respond module rawtxt commando.

End Main.

(** ** The template index *)

Module Index.

(** Modelled from the spec: an entry of the template index, which belongs
    to the imported [clitable] package and is not among the sources.  The
    spec gives an entry a platform pattern, a command pattern and the
    path of a template. *)
Record Entry := mkEntry {
  platform_pattern : string;
  command_pattern : string;
  template_path : string
}.

Section Lookup.

(** The regular-expression match of a pattern against a text, left
    open: the lookup order does not depend on it. *)
Variable re_match : string -> string -> bool.

(** Modelled from the spec: a candidate matches only if both of its
    patterns match. *)
Definition matches (e : Entry) (platform command : string) : bool :=
  re_match (platform_pattern e) platform && re_match (command_pattern e) command.

(** Modelled from the spec: [lookup(platform, command)] over the entries
    in file order; "not found" is [None]. *)
Fixpoint lookup (index : list Entry) (platform command : string) : option string :=
  match index with
  | [] => None
  | e :: index' =>
      if matches e platform command then Some (template_path e)
      else lookup index' platform command
  end.

(** Modelled from the spec: a library whose [ParseCmd] queries the index
    and runs the template engine on the template found; "not found"
    reaches the module as [CliTableError].  The engine is left open. *)
Definition library (index : list Entry)
    (engine : string -> pyval -> result (list string * list (list pyval)))
    : Library :=
  {| lib_init := fun _ _ => Ok tt;
     lib_parse := fun _ _ rawoutput Command Platform =>
       match Command with
       | Some c =>
           match lookup index Platform c with
           | Some path => engine path rawoutput
           | None => Err CliTableError
           end
       | None => Err TypeError
       end |}.

End Lookup.

End Index.

(** ** Running the monad *)

Definition outcome {A} (m : M A) (st : state) : res A := fst (m st).
Definition final {A} (m : M A) (st : state) : state := snd (m st).

(** An outcome that signals an error to the caller: [fail_json] or an
    exception that leaves the module. *)
Definition signals_error {A} (r : res A) : Prop :=
  match r with
  | Ret _ => False
  | Raise _ => True
  | Exit (FailJson _) => True
  | Exit (ExitJson _) => False
  end.

(** ** The normalizer as a function of header and rows *)

(** What the inner loop leaves in [temp_dict]: the values of the row stored
    one after the other under the lower-cased headers. *)
Fixpoint row_dict (hs : list string) (row : list pyval) (d : gmap string pyval)
    {struct row} : gmap string pyval :=
  match row, hs with
  | v :: row', h :: hs' => row_dict hs' row' (<[Str.lower h := v]> d)
  | _, _ => d
  end.

Definition table_dicts (hs : list string) (rs : list (list pyval)) : list pyval :=
  (fun row => PDict (row_dict hs row ∅)) <$> rs.

(** Calling [m] [n] times in a row. *)
Fixpoint call_times {A} (n : nat) (m : M A) : M unit :=
  match n with
  | 0 => mret tt
  | S n' => m;; call_times n' m
  end.


(** The state once [get_structured_data] has built its table and [ParseCmd]
    has run: one more object on the heap, two more calls in the trace. *)
Definition parsed_state (rawoutput : pyval) (module : params) (st : state)
    (o : CliTable) : state :=
  mkState (heap st ++ [o])
    (trace st ++ [EvCliTable (index_file module) (template_dir module);
                  EvParseCmd rawoutput (command module) (platform module)]).

(** The [results] of [main] as initialised: both lists empty. *)
Definition empty_results : gmap string pyval :=
  <["response_list" := PList []]> (<["response" := PList []]> ∅).

(** What a device's entry of the trigger results says about the command:
    it holds the command as a key, or it is a dictionary without it. *)
Definition has_command (command_output : pyval) (key : option string) : Prop :=
  exists m k v, command_output = PDict m /\ key = Some k /\ m !! k = Some v.

Definition lacks_command (command_output : pyval) (key : option string) : Prop :=
  exists m, command_output = PDict m /\ forall k, key = Some k -> m !! k = None.

(** [get_structured_data] comes back with a result for the text that a
    device's entry holds under the command (for that text the library
    raises nothing but [CliTableError], and its rows fit its header). *)
Definition structures_text (lib : Library) (module : params) (command_output : pyval)
    : Prop :=
  forall m k raw_txt,
    command_output = PDict m -> command module = Some k -> m !! k = Some raw_txt ->
    forall st, exists sd st', get_structured_data lib raw_txt module st = (Ret sd, st').

(** The entry [dict(device=device, response=sd)] of one device, with [sd]
    what [get_structured_data] returns for the text under the command. *)
Definition entry_for (lib : Library) (module : params) (entry : pyval)
    (item : string * pyval) : Prop :=
  exists m k raw_txt sd st1 st2,
    item.2 = PDict m /\ command module = Some k /\ m !! k = Some raw_txt /\
    get_structured_data lib raw_txt module st1 = (Ret sd, st2) /\
    entry = PDict (<["device" := PStr item.1]> (<["response" := sd]> ∅)).

(** A computation that only appends to the trace, and only events that
    satisfy [P]. *)
Definition emits {A} (P : event -> Prop) (m : M A) : Prop :=
  forall st, exists evs, trace (final m st) = trace st ++ evs /\ Forall P evs.

(** The paths and directories the outside calls of a run may receive when
    [template_dir] is used as it was given: the index file is looked for
    under [template_dir + '/' + index_file], and [CliTable] is built on
    [index_file] and [template_dir]. *)
Definition built_from (module : params) (ev : event) : Prop :=
  match ev with
  | EvIsFile path =>
      path = template_dir module +:+ "/" +:+ index_file module \/
      Some path = file module \/ Some path = commands_file module
  | EvCliTable i d => i = index_file module /\ d = template_dir module
  | _ => True
  end.

(** ** Sample runs *)

Module Sample.

(** An index with a generic entry ahead of a specific one.  Patterns
    without metacharacters, matched from the start of the text as
    [re.match] does, are prefixes. *)
Definition index : list Index.Entry :=
  [ Index.mkEntry "cisco" "show" "generic.template";
    Index.mkEntry "cisco_ios" "show vlan" "cisco_ios_show_vlan.template" ].

Definition vlan_header : list string := ["VLAN_ID"; "NAME"; "STATUS"].

(** An engine that finds one record in the text. *)
Definition one_vlan : string -> pyval -> result (list string * list (list pyval)) :=
  fun _ _ => Ok (vlan_header, [[PStr "1"; PStr "default"; PStr "active"]]).

(** An engine whose template matches no line of the text. *)
Definition no_match : string -> pyval -> result (list string * list (list pyval)) :=
  fun _ _ => Ok (vlan_header, []).

(** An engine whose template sends an unexpected line to [Error]. *)
Definition error_rule : string -> pyval -> result (list string * list (list pyval)) :=
  fun _ _ => Err TextFSMError.

Definition show_vlan : params :=
  {| connection := "offline";
     platform := "cisco_ios";
     file := Some "vlan.txt";
     local_file := None;
     index_file := "index";
     template_dir := "templates/";
     use_templates := true;
     trigger_device_list := None;
     command := Some "show vlan";
     commands_file := None;
     host := None;
     port := None;
     delay := RInt 1;
     global_delay_factor := RInt 1;
     username := None;
     password := None;
     secret := None;
     use_keys := false;
     key_file := None;
     optional_args := ∅ |}.

Definition start : state := mkState [] [].

(** A table whose headers differ in case only. *)
Definition clash_table : CliTable :=
  mkCliTable "index" "templates" ["A"; "a"] [[PStr "x"; PStr "y"]].

Definition vlan_table : CliTable :=
  mkCliTable "index" "templates" vlan_header
    [[PStr "1"; PStr "default"; PStr "active"]; [PStr "10"; PStr "users"; PStr "active"]].

(** A control host with every package installed, every file present and
    every file holding [content]; no device answers. *)
Definition offline_world (content : string) : World :=
  {| HAS_TEXTFSM := true;
     HAS_NETMIKO := true;
     HAS_TRIGGER := true;
     isfile := fun _ => true;
     file_read := fun _ => Ok content;
     file_readlines := fun _ => Ok [content];
     file_write := fun _ _ => Ok tt;
     ConnectHandler := fun _ _ _ _ _ _ _ _ _ => Err IOError;
     enable := Err IOError;
     send_command_timing := fun _ _ _ => Err IOError;
     send_config_set := fun _ _ _ => Err IOError;
     Commando_run := fun _ _ _ _ _ => Err IOError |}.

(** The results of a trigger run over one switch. *)
Definition one_switch : gmap string pyval :=
  {[ "sw1" := PDict {[ "show vlan" := PStr "1 default active" ]} ]}.

End Sample.

(** ** Kinds of outside calls *)

(** The calls that reach a device: the netmiko session and the trigger run. *)
Definition is_device_event (ev : event) : bool :=
  match ev with
  | EvConnect _ _ _ | EvEnable | EvSendCommand _ | EvSendConfig _ | EvCommando _ _ => true
  | _ => false
  end.

(** The calls into the [clitable] library. *)
Definition is_library_event (ev : event) : bool :=
  match ev with
  | EvCliTable _ _ | EvParseCmd _ _ _ => true
  | _ => false
  end.

(** A row that has no more values than there are headers. *)
Definition fits (h : list string) (row : list pyval) : Prop := length row <= length h.

#[global] Instance fits_dec h row : Decision (fits h row).
Proof. unfold fits. apply _. Defined.

(** The connections that go through netmiko, and those among them over
    telnet, as the membership tests of [main] list them. *)
Definition netmiko_connections : list string :=
  ["ssh"; "netmiko_ssh"; "netmiko_telnet"; "telnet"].

Definition telnet_connections : list string := ["netmiko_telnet"; "telnet"].

(** A computation that leaves the state as it finds it: no outside call,
    no table built or filled. *)
Definition silent {A} (m : M A) : Prop := forall st, final m st = st.

(** The three parameters that [int] reads are readable: [delay] and
    [global_delay_factor] always are read, [port] when it is given and
    true. *)
Definition numbers_readable (module : params) : Prop :=
  (exists d, int (delay module) = Ok d) /\
  (exists g, int (global_delay_factor module) = Ok g) /\
  (forall r, port module = Some r -> raw_truthy r = true -> exists z, int r = Ok z).

(** ** More sample runs *)

Module Cases.

(** [show_vlan] over ssh to one host, with the commands in a file and no
    single command. *)
Definition from_commands_file : params :=
  {| connection := "ssh";
     platform := "cisco_ios";
     file := None;
     local_file := None;
     index_file := "index";
     template_dir := "templates";
     use_templates := true;
     trigger_device_list := None;
     command := None;
     commands_file := Some "commands.txt";
     host := Some "10.0.0.1";
     port := None;
     delay := RInt 1;
     global_delay_factor := RInt 1;
     username := Some "admin";
     password := Some "secret";
     secret := None;
     use_keys := false;
     key_file := None;
     optional_args := ∅ |}.

(** A control host where only the index file exists and the device accepts
    the session. *)
Definition index_only_world : World :=
  {| HAS_TEXTFSM := true;
     HAS_NETMIKO := true;
     HAS_TRIGGER := true;
     isfile := fun path => String.eqb path "templates/index";
     file_read := fun _ => Err IOError;
     file_readlines := fun _ => Err IOError;
     file_write := fun _ _ => Ok tt;
     ConnectHandler := fun _ _ _ _ _ _ _ _ _ => Ok tt;
     enable := Ok tt;
     send_command_timing := fun _ _ _ => Ok "1 default active";
     send_config_set := fun _ _ _ => Ok "1 default active";
     Commando_run := fun _ _ _ _ _ => Err IOError |}.

(** A control host without any file. *)
Definition bare_world : World :=
  {| HAS_TEXTFSM := true;
     HAS_NETMIKO := true;
     HAS_TRIGGER := true;
     isfile := fun _ => false;
     file_read := fun _ => Err IOError;
     file_readlines := fun _ => Err IOError;
     file_write := fun _ _ => Ok tt;
     ConnectHandler := fun _ _ _ _ _ _ _ _ _ => Ok tt;
     enable := Ok tt;
     send_command_timing := fun _ _ _ => Ok "1 default active";
     send_config_set := fun _ _ _ => Ok "1 default active";
     Commando_run := fun _ _ _ _ _ => Err IOError |}.

(** [Sample.show_vlan] over telnet, without a host. *)
Definition telnet_no_host : params :=
  {| connection := "telnet";
     platform := "cisco_ios";
     file := None;
     local_file := None;
     index_file := "index";
     template_dir := "templates";
     use_templates := true;
     trigger_device_list := None;
     command := Some "show vlan";
     commands_file := None;
     host := None;
     port := None;
     delay := RInt 1;
     global_delay_factor := RInt 1;
     username := None;
     password := None;
     secret := None;
     use_keys := false;
     key_file := None;
     optional_args := ∅ |}.

(** [Sample.show_vlan] over telnet to one host. *)
Definition telnet_host : params :=
  {| connection := "telnet";
     platform := "cisco_ios";
     file := None;
     local_file := None;
     index_file := "index";
     template_dir := "templates";
     use_templates := true;
     trigger_device_list := None;
     command := Some "show vlan";
     commands_file := None;
     host := Some "10.0.0.1";
     port := None;
     delay := RInt 1;
     global_delay_factor := RInt 1;
     username := None;
     password := None;
     secret := None;
     use_keys := false;
     key_file := None;
     optional_args := ∅ |}.

(** [telnet_host] with the port written as the string ['0'] and the delay
    as the string [' 1 ']. *)
Definition telnet_port_zero : params :=
  {| connection := "telnet";
     platform := "cisco_ios";
     file := None;
     local_file := None;
     index_file := "index";
     template_dir := "templates";
     use_templates := true;
     trigger_device_list := None;
     command := Some "show vlan";
     commands_file := None;
     host := Some "10.0.0.1";
     port := Some (RStr "0");
     delay := RStr " 1 ";
     global_delay_factor := RInt 1;
     username := None;
     password := None;
     secret := None;
     use_keys := false;
     key_file := None;
     optional_args := ∅ |}.

(** [Sample.show_vlan] with a delay that is no number. *)
Definition bad_delay : params :=
  {| connection := "offline";
     platform := "cisco_ios";
     file := Some "vlan.txt";
     local_file := None;
     index_file := "index";
     template_dir := "templates";
     use_templates := true;
     trigger_device_list := None;
     command := Some "show vlan";
     commands_file := None;
     host := None;
     port := None;
     delay := RStr "fast";
     global_delay_factor := RInt 1;
     username := None;
     password := None;
     secret := None;
     use_keys := false;
     key_file := None;
     optional_args := ∅ |}.

(** [telnet_host] with templates switched off. *)
Definition telnet_raw : params :=
  {| connection := "telnet";
     platform := "cisco_ios";
     file := None;
     local_file := None;
     index_file := "index";
     template_dir := "templates";
     use_templates := false;
     trigger_device_list := None;
     command := Some "show vlan";
     commands_file := None;
     host := Some "10.0.0.1";
     port := None;
     delay := RInt 1;
     global_delay_factor := RInt 1;
     username := None;
     password := None;
     secret := None;
     use_keys := false;
     key_file := None;
     optional_args := ∅ |}.

(** Offline, with a list of trigger devices left in the parameters. *)
Definition offline_with_devices : params :=
  {| connection := "offline";
     platform := "cisco_ios";
     file := Some "vlan.txt";
     local_file := None;
     index_file := "index";
     template_dir := "templates";
     use_templates := true;
     trigger_device_list := Some ["sw1"; "sw2"];
     command := Some "show vlan";
     commands_file := None;
     host := None;
     port := None;
     delay := RInt 1;
     global_delay_factor := RInt 1;
     username := None;
     password := None;
     secret := None;
     use_keys := false;
     key_file := None;
     optional_args := ∅ |}.

(** Offline, templates switched off. *)
Definition offline_raw : params :=
  {| connection := "offline";
     platform := "cisco_ios";
     file := Some "vlan.txt";
     local_file := None;
     index_file := "index";
     template_dir := "templates";
     use_templates := false;
     trigger_device_list := None;
     command := Some "show vlan";
     commands_file := None;
     host := None;
     port := None;
     delay := RInt 1;
     global_delay_factor := RInt 1;
     username := None;
     password := None;
     secret := None;
     use_keys := false;
     key_file := None;
     optional_args := ∅ |}.

(** A table with one row too long for its header. *)
Definition long_row_table : CliTable :=
  mkCliTable "index" "templates" ["VLAN_ID"; "NAME"]
    [[PStr "1"; PStr "default"]; [PStr "10"; PStr "users"; PStr "active"]].

(** An engine that answers with that table. *)
Definition long_row : string -> pyval -> result (list string * list (list pyval)) :=
  fun _ _ => Ok (header long_row_table, rows long_row_table).

(** An engine that knows one text and sends every other line to [Error]. *)
Definition picky : string -> pyval -> result (list string * list (list pyval)) :=
  fun _ rawoutput =>
    match rawoutput with
    | PStr s =>
        if String.eqb s "1 default active"
        then Ok (Sample.vlan_header, [[PStr "1"; PStr "default"; PStr "active"]])
        else Err TextFSMError
    | _ => Err TextFSMError
    end.

(** The results of a trigger run over two switches, the second of which
    answered another command. *)
Definition two_switches : gmap string pyval :=
  <["sw1" := PDict {[ "show vlan" := PStr "1 default active" ]}]>
    {[ "sw2" := PDict {[ "show version" := PStr "IOS 15.2" ]} ]}.

(** A library whose constructor finds the index without its [Template]
    column. *)
Definition broken_index : Library :=
  mkLibrary (fun _ _ => Err CliTableError) (fun _ _ _ _ _ => Ok ([], [])).

End Cases.

(** * Properties *)

(** ** The monad *)

Lemma bind_run {A B} (m : M A) (f : A -> M B) st :
  (m ≫= f) st =
  match m st with
  | (Ret a, st') => f a st'
  | (Raise e, st') => (Raise e, st')
  | (Exit x, st') => (Exit x, st')
  end.
Proof. reflexivity. Qed.

Lemma bind_ret {A B} (m : M A) (f : A -> M B) st a st' :
  m st = (Ret a, st') -> (m ≫= f) st = f a st'.
Proof. intros H. rewrite bind_run, H. reflexivity. Qed.

Lemma bind_raise {A B} (m : M A) (f : A -> M B) st e st' :
  m st = (Raise e, st') -> (m ≫= f) st = (Raise e, st').
Proof. intros H. rewrite bind_run, H. reflexivity. Qed.

Lemma load_run r st o : heap st !! r = Some o -> load r st = (Ret o, st).
Proof. intros H. unfold load. rewrite H. reflexivity. Qed.

Lemma call_times_run {A} (m : M A) st a :
  m st = (Ret a, st) -> forall n, call_times n m st = (Ret tt, st).
Proof.
  intros Hm n. induction n as [|n IH]; [reflexivity|].
  cbn [call_times]. rewrite (bind_ret _ _ _ _ _ Hm). exact IH.
Qed.


Lemma try_except_ret {A} (body handler : M A) catches st a st' :
  body st = (Ret a, st') -> try_except body catches handler st = (Ret a, st').
Proof. intros H. unfold try_except. rewrite H. reflexivity. Qed.

Lemma try_except_raise {A} (body handler : M A) catches st e st' :
  body st = (Raise e, st') ->
  try_except body catches handler st =
    if catches e then handler st' else (Raise e, st').
Proof. intros H. unfold try_except. rewrite H. reflexivity. Qed.

(** ** The normalizer *)

Lemma fill_dict_run r st o row : forall index d,
  heap st !! r = Some o ->
  length row <= length (drop index (header o)) ->
  fill_dict r index row d st = (Ret (row_dict (drop index (header o)) row d), st).
Proof.
  induction row as [|v row IH]; intros index d Ho Hlen.
  - reflexivity.
  - simpl in Hlen.
    destruct (header o !! index) as [h|] eqn:Hh.
    + rewrite (drop_S _ _ _ Hh) in Hlen |- *. simpl in Hlen.
      cbn [fill_dict row_dict].
      rewrite (bind_ret _ _ _ _ _ (load_run _ _ _ Ho)).
      unfold getitem. rewrite Hh.
      rewrite (bind_ret _ _ st h st) by reflexivity.
      apply IH; [done | lia].
    + apply lookup_ge_None in Hh. rewrite length_drop in Hlen. lia.
Qed.

Lemma fill_dict_overflow r st o row : forall index d,
  heap st !! r = Some o ->
  length (drop index (header o)) < length row ->
  fill_dict r index row d st = (Raise IndexError, st).
Proof.
  induction row as [|v row IH]; intros index d Ho Hlen.
  - simpl in Hlen. lia.
  - cbn [fill_dict].
    rewrite (bind_ret _ _ _ _ _ (load_run _ _ _ Ho)).
    unfold getitem.
    destruct (header o !! index) as [h|] eqn:Hh.
    + rewrite (bind_ret _ _ st h st) by reflexivity.
      apply IH; [done|].
      rewrite (drop_S _ _ _ Hh) in Hlen. simpl in Hlen. lia.
    + reflexivity.
Qed.

Lemma each_row_run r st o rs : forall objs,
  heap st !! r = Some o ->
  Forall (fun row => length row <= length (header o)) rs ->
  each_row r rs objs st = (Ret (objs ++ table_dicts (header o) rs), st).
Proof.
  induction rs as [|row rs IH]; intros objs Ho Hall.
  - cbn. rewrite app_nil_r. reflexivity.
  - apply Forall_cons in Hall as [Hrow Hall].
    cbn [each_row].
    rewrite (bind_ret _ _ _ _ _ (fill_dict_run r st o row 0 ∅ Ho Hrow)).
    rewrite IH by done.
    unfold table_dicts. rewrite fmap_cons, <- app_assoc. reflexivity.
Qed.

Lemma clitable_to_dict_run r st o :
  heap st !! r = Some o ->
  Forall (fun row => length row <= length (header o)) (rows o) ->
  clitable_to_dict r st = (Ret (PList (table_dicts (header o) (rows o))), st).
Proof.
  intros Ho Hall. unfold clitable_to_dict.
  rewrite (bind_ret _ _ _ _ _ (load_run _ _ _ Ho)).
  rewrite (bind_ret _ _ _ _ _ (each_row_run r st o (rows o) [] Ho Hall)).
  reflexivity.
Qed.

Lemma row_dict_other hs row : forall d key,
  (forall k h', k < length row -> hs !! k = Some h' -> Str.lower h' <> key) ->
  row_dict hs row d !! key = d !! key.
Proof.
  revert hs. induction row as [|v row IH]; intros hs d key Hne; [done|].
  destruct hs as [|h hs]; [done|]. cbn [row_dict].
  rewrite IH.
  - apply lookup_insert_ne. apply (Hne 0 h); [simpl; lia | done].
  - intros k h' Hk Hh'. apply (Hne (S k) h'); [simpl; lia | done].
Qed.

Lemma row_dict_lookup hs row : forall d j h v,
  hs !! j = Some h ->
  row !! j = Some v ->
  (forall k h', j < k -> k < length row -> hs !! k = Some h' ->
     Str.lower h' <> Str.lower h) ->
  row_dict hs row d !! Str.lower h = Some v.
Proof.
  revert hs. induction row as [|v0 row IH]; intros hs d j h v Hh Hv Hlast; [done|].
  destruct hs as [|h0 hs]; [done|]. cbn [row_dict].
  destruct j as [|j].
  - simpl in Hh, Hv. simplify_eq.
    rewrite row_dict_other; [apply lookup_insert_eq|].
    intros k h' Hk Hh'. apply (Hlast (S k) h'); [lia | simpl; lia | done].
  - simpl in Hh, Hv. apply (IH hs _ j h v Hh Hv).
    intros k h' Hjk Hk Hh'. apply (Hlast (S k) h'); [lia | simpl; lia | done].
Qed.

Lemma row_dict_lookup_inv hs row : forall d key v,
  row_dict hs row d !! key = Some v ->
  d !! key = Some v \/
  exists j h, hs !! j = Some h /\ row !! j = Some v /\ Str.lower h = key.
Proof.
  revert hs. induction row as [|v0 row IH]; intros hs d key v Hd; [by left|].
  destruct hs as [|h0 hs]; [by left|]. cbn [row_dict] in Hd.
  apply IH in Hd as [Hd | (j & h & Hh & Hv & Hkey)].
  - destruct (decide (Str.lower h0 = key)) as [Heq|Hne].
    + subst key. rewrite lookup_insert_eq in Hd. simplify_eq.
      right. exists 0, h0. done.
    + rewrite lookup_insert_ne in Hd by done. by left.
  - right. exists (S j), h. done.
Qed.

Lemma table_dicts_lookup hs rs i row :
  rs !! i = Some row -> table_dicts hs rs !! i = Some (PDict (row_dict hs row ∅)).
Proof. intros H. unfold table_dicts. rewrite list_lookup_fmap, H. reflexivity. Qed.

(** ** [get_structured_data] step by step *)

Section Structured.

Variable lib : Library.

Lemma new_CliTable_ok i d st u :
  lib_init lib i d = Ok u ->
  new_CliTable lib i d st =
    (Ret (length (heap st)),
     mkState (heap st ++ [mkCliTable i d [] []]) (trace st ++ [EvCliTable i d])).
Proof.
  intros Hinit. unfold new_CliTable. rewrite !bind_run. cbn.
  rewrite Hinit. reflexivity.
Qed.

Lemma new_CliTable_err i d st e :
  lib_init lib i d = Err e ->
  new_CliTable lib i d st = (Raise e, mkState (heap st) (trace st ++ [EvCliTable i d])).
Proof.
  intros Hinit. unfold new_CliTable. rewrite !bind_run. cbn.
  rewrite Hinit. reflexivity.
Qed.

Lemma ParseCmd_ok r raw c p st o h rs :
  heap st !! r = Some o ->
  lib_parse lib (ct_index_file o) (ct_template_dir o) raw c p = Ok (h, rs) ->
  ParseCmd lib r raw c p st =
    (Ret tt,
     mkState (<[r := mkCliTable (ct_index_file o) (ct_template_dir o) h rs]> (heap st))
       (trace st ++ [EvParseCmd raw c p])).
Proof.
  intros Ho Hparse. unfold ParseCmd. rewrite bind_run. cbn.
  rewrite bind_run. unfold load. cbn. rewrite Ho.
  rewrite bind_run, Hparse. reflexivity.
Qed.

Lemma ParseCmd_err r raw c p st o e :
  heap st !! r = Some o ->
  lib_parse lib (ct_index_file o) (ct_template_dir o) raw c p = Err e ->
  ParseCmd lib r raw c p st =
    (Raise e, mkState (heap st) (trace st ++ [EvParseCmd raw c p])).
Proof.
  intros Ho Hparse. unfold ParseCmd. rewrite bind_run. cbn.
  rewrite bind_run. unfold load. cbn. rewrite Ho.
  rewrite bind_run, Hparse. reflexivity.
Qed.

Variables (rawoutput : pyval) (module : params) (st : state).

Let i := index_file module.
Let d := template_dir module.

Lemma get_structured_data_init_err e :
  lib_init lib i d = Err e ->
  get_structured_data lib rawoutput module st =
    (Raise e, mkState (heap st) (trace st ++ [EvCliTable i d])).
Proof.
  intros Hinit. unfold get_structured_data. fold i d.
  apply bind_raise, new_CliTable_err, Hinit.
Qed.

Lemma get_structured_data_parse_err u e :
  lib_init lib i d = Ok u ->
  lib_parse lib i d rawoutput (command module) (platform module) = Err e ->
  get_structured_data lib rawoutput module st =
    (if is_CliTableError e then Ret (PList [rawoutput]) else Raise e,
     parsed_state rawoutput module st (mkCliTable i d [] [])).
Proof.
  intros Hinit Hparse. unfold get_structured_data. fold i d.
  rewrite (bind_ret _ _ _ _ _ (new_CliTable_ok i d st u Hinit)).
  erewrite try_except_raise.
  2:{ apply bind_raise.
      apply (ParseCmd_err _ _ _ _ _ (mkCliTable i d [] [])); [|exact Hparse].
      cbn. by apply list_lookup_middle. }
  unfold parsed_state. fold i d. cbn. rewrite <- app_assoc.
  destruct e; reflexivity.
Qed.

Lemma get_structured_data_parse_ok u h rs :
  lib_init lib i d = Ok u ->
  lib_parse lib i d rawoutput (command module) (platform module) = Ok (h, rs) ->
  Forall (fun row => length row <= length h) rs ->
  get_structured_data lib rawoutput module st =
    (Ret (PList (table_dicts h rs)), parsed_state rawoutput module st (mkCliTable i d h rs)).
Proof.
  intros Hinit Hparse Hfit. unfold get_structured_data. fold i d.
  rewrite (bind_ret _ _ _ _ _ (new_CliTable_ok i d st u Hinit)).
  erewrite try_except_ret; [reflexivity|].
  erewrite bind_ret.
  2:{ apply (ParseCmd_ok _ _ _ _ _ (mkCliTable i d [] [])); [|exact Hparse].
      cbn. by apply list_lookup_middle. }
  cbn [ct_index_file ct_template_dir heap trace].
  rewrite insert_app_r_alt, Nat.sub_diag, <- app_assoc by lia. cbn [insert list_insert app].
  apply (clitable_to_dict_run _ _ (mkCliTable i d h rs)); [|exact Hfit].
  cbn. by apply list_lookup_middle.
Qed.

End Structured.

(** ** The fallback of [get_structured_data] *)

(** C1: for every raw text, when [ParseCmd] applied to it raises
    [CliTableError] (no template, or an invalid one), [get_structured_data]
    returns the one-element list holding the raw text unchanged, and no
    exception reaches the caller. *)
Theorem get_structured_data_absorbs_CliTableError lib (raw_text : string) module st :
  lib_init lib (index_file module) (template_dir module) = Ok tt ->
  lib_parse lib (index_file module) (template_dir module) (PStr raw_text)
    (command module) (platform module) = Err CliTableError ->
  outcome (get_structured_data lib (PStr raw_text) module) st
    = Ret (PList [PStr raw_text]).
Proof.
  intros Hinit Hparse. unfold outcome.
  rewrite (get_structured_data_parse_err lib _ _ _ tt CliTableError Hinit Hparse).
  reflexivity.
Qed.

Lemma get_structured_data_absorbs_CliTableError_witness :
  outcome (get_structured_data (Index.library String.prefix [] Sample.one_vlan)
             (PStr "Vlan1 active") Sample.show_vlan) Sample.start
    = Ret (PList [PStr "Vlan1 active"]).
Proof.
  apply get_structured_data_absorbs_CliTableError; reflexivity.
Defined.

(** C3, as the spec has it, fails: the template matches nothing in the text,
    and what comes back is the empty list, not the text. *)
Lemma no_match_is_not_raw_fallback :
  lib_parse (Index.library String.prefix Sample.index Sample.no_match)
    "index" "templates/" (PStr "% Invalid input") (Some "show vlan") "cisco_ios"
    = Ok (Sample.vlan_header, []) /\
  outcome (get_structured_data (Index.library String.prefix Sample.index Sample.no_match)
             (PStr "% Invalid input") Sample.show_vlan) Sample.start
    <> Ret (PList [PStr "% Invalid input"]).
Proof.
  split; [reflexivity|]. vm_compute. discriminate.
Qed.

(** C4, as the code has it: an exception that [ParseCmd] raises while the
    engine scans the text leads to the raw-text result when it is a
    [CliTableError]; every other exception leaves [get_structured_data]
    as it is. *)
Theorem get_structured_data_catches_only_CliTableError lib rawoutput module st u e :
  lib_init lib (index_file module) (template_dir module) = Ok u ->
  lib_parse lib (index_file module) (template_dir module) rawoutput
    (command module) (platform module) = Err e ->
  outcome (get_structured_data lib rawoutput module) st
    = if is_CliTableError e then Ret (PList [rawoutput]) else Raise e.
Proof.
  intros Hinit Hparse. unfold outcome.
  rewrite (get_structured_data_parse_err lib _ _ _ u e Hinit Hparse).
  reflexivity.
Qed.

Lemma get_structured_data_catches_only_CliTableError_witness :
  outcome (get_structured_data (Index.library String.prefix Sample.index Sample.error_rule)
             (PStr "% Invalid input") Sample.show_vlan) Sample.start
    = Raise TextFSMError.
Proof.
  apply (get_structured_data_catches_only_CliTableError _ _ _ _ tt TextFSMError);
    reflexivity.
Defined.

(** C4, as the spec has it, fails: the engine raises [TextFSMError] on the
    text, and the exception reaches the caller instead of the raw text. *)
Lemma TextFSMError_propagates :
  lib_parse (Index.library String.prefix Sample.index Sample.error_rule)
    "index" "templates/" (PStr "% Invalid input") (Some "show vlan") "cisco_ios"
    = Err TextFSMError /\
  outcome (get_structured_data (Index.library String.prefix Sample.index Sample.error_rule)
             (PStr "% Invalid input") Sample.show_vlan) Sample.start
    = Raise TextFSMError /\
  outcome (get_structured_data (Index.library String.prefix Sample.index Sample.error_rule)
             (PStr "% Invalid input") Sample.show_vlan) Sample.start
    <> Ret (PList [PStr "% Invalid input"]).
Proof.
  split; [reflexivity|]. split; [vm_compute; reflexivity | vm_compute; discriminate].
Qed.

(** ** The order of the index *)

(** C5: the first entry in file order whose two patterns match is the one
    selected, whatever follows it: later entries that match as well, more
    specific or not, are not consulted.  [ParseCmd] of the library built on
    the index runs the engine on the template of that entry. *)
Theorem lookup_first_match re_match engine before e after platform command :
  Forall (fun e' => Index.matches re_match e' platform command = false) before ->
  Index.matches re_match e platform command = true ->
  Index.lookup re_match (before ++ e :: after) platform command
    = Some (Index.template_path e) /\
  forall i d rawoutput,
    lib_parse (Index.library re_match (before ++ e :: after) engine)
      i d rawoutput (Some command) platform
    = engine (Index.template_path e) rawoutput.
Proof.
  intros Hbefore He.
  assert (Index.lookup re_match (before ++ e :: after) platform command
          = Some (Index.template_path e)) as Hlookup.
  { induction Hbefore as [|e' before He' _ IH]; cbn.
    - rewrite He. reflexivity.
    - rewrite He'. exact IH. }
  split; [exact Hlookup|].
  intros i d rawoutput. cbn. rewrite Hlookup. reflexivity.
Qed.

Lemma lookup_first_match_witness :
  Index.lookup String.prefix Sample.index "cisco_ios" "show vlan"
    = Some "generic.template" /\
  forall i d rawoutput,
    lib_parse (Index.library String.prefix Sample.index Sample.one_vlan)
      i d rawoutput (Some "show vlan") "cisco_ios"
    = Sample.one_vlan "generic.template" rawoutput.
Proof.
  apply (lookup_first_match String.prefix Sample.one_vlan []
           (Index.mkEntry "cisco" "show" "generic.template")
           [Index.mkEntry "cisco_ios" "show vlan" "cisco_ios_show_vlan.template"]
           "cisco_ios" "show vlan").
  - constructor.
  - reflexivity.
Defined.

(** ** The normalizer on a parsed table *)

(** C6, as the code has it: for a table with header [H] and rows [R], no row
    longer than [H], [clitable_to_dict] returns one mapping per row of [R],
    in the order of [R]; the mapping of a row sends [H[j]] lower-cased to
    the [j]-th value of the row for every column [j] whose lower-cased
    header no later column of the row repeats (a later column with the same
    lower-cased header overwrites the earlier one), and it has no other
    keys. *)
Theorem clitable_to_dict_rows r st o :
  heap st !! r = Some o ->
  Forall (fun row => length row <= length (header o)) (rows o) ->
  exists objs,
    outcome (clitable_to_dict r) st = Ret (PList objs) /\
    length objs = length (rows o) /\
    forall i row, rows o !! i = Some row ->
      exists d, objs !! i = Some (PDict d) /\
        (forall j h v, header o !! j = Some h -> row !! j = Some v ->
           (forall k h', j < k -> k < length row -> header o !! k = Some h' ->
              Str.lower h' <> Str.lower h) ->
           d !! Str.lower h = Some v) /\
        (forall key v, d !! key = Some v ->
           exists j h, header o !! j = Some h /\ row !! j = Some v /\ Str.lower h = key).
Proof.
  intros Ho Hfit. exists (table_dicts (header o) (rows o)).
  split; [|split].
  - unfold outcome. rewrite (clitable_to_dict_run r st o Ho Hfit). reflexivity.
  - unfold table_dicts. apply length_fmap.
  - intros i row Hrow. exists (row_dict (header o) row ∅).
    split; [|split].
    + by apply table_dicts_lookup.
    + intros j h v Hh Hv Hlast. by apply (row_dict_lookup _ _ _ j).
    + intros key v Hd.
      apply row_dict_lookup_inv in Hd as [Hd|Hd]; [|exact Hd].
      by rewrite lookup_empty in Hd.
Qed.

Lemma clitable_to_dict_rows_witness :
  exists objs,
    outcome (clitable_to_dict 0) (mkState [Sample.vlan_table] []) = Ret (PList objs) /\
    length objs = length (rows Sample.vlan_table) /\
    forall i row, rows Sample.vlan_table !! i = Some row ->
      exists d, objs !! i = Some (PDict d) /\
        (forall j h v, header Sample.vlan_table !! j = Some h -> row !! j = Some v ->
           (forall k h', j < k -> k < length row ->
              header Sample.vlan_table !! k = Some h' ->
              Str.lower h' <> Str.lower h) ->
           d !! Str.lower h = Some v) /\
        (forall key v, d !! key = Some v ->
           exists j h, header Sample.vlan_table !! j = Some h /\ row !! j = Some v /\
                       Str.lower h = key).
Proof.
  apply (clitable_to_dict_rows 0 (mkState [Sample.vlan_table] []) Sample.vlan_table).
  - reflexivity.
  - repeat constructor.
Defined.

(** C6, as the spec has it, fails: with the headers [A] and [a] the one row
    [x], [y] becomes the mapping of [a] to [y], so that [H[0]] lower-cased
    is not sent to the value at position 0. *)
Lemma clitable_to_dict_case_clash :
  header Sample.clash_table !! 0 = Some "A" /\
  rows Sample.clash_table !! 0 = Some [PStr "x"; PStr "y"] /\
  outcome (clitable_to_dict 0) (mkState [Sample.clash_table] [])
    = Ret (PList [PDict {[ "a" := PStr "y" ]}]) /\
  ({[ "a" := PStr "y" ]} : gmap string pyval) !! Str.lower "A" <> Some (PStr "x").
Proof.
  split; [reflexivity|]. split; [reflexivity|]. split.
  - vm_compute. reflexivity.
  - vm_compute. discriminate.
Qed.

(** C7: on a table none of whose rows has more values than there are
    headers, [clitable_to_dict] returns (it raises nothing), it leaves the
    whole state as it found it (the table it was given, every other object
    and the trace of outside calls), calling it any number of times before
    does not change what it returns, and what it returns depends on the
    header and the rows alone. *)
Theorem clitable_to_dict_pure r st o :
  heap st !! r = Some o ->
  Forall (fun row => length row <= length (header o)) (rows o) ->
  exists objs,
    clitable_to_dict r st = (Ret objs, st) /\
    (forall n, (call_times n (clitable_to_dict r);; clitable_to_dict r) st
               = (Ret objs, st)) /\
    (forall r' st' o', heap st' !! r' = Some o' ->
       header o' = header o -> rows o' = rows o ->
       clitable_to_dict r' st' = (Ret objs, st')).
Proof.
  intros Ho Hfit. exists (PList (table_dicts (header o) (rows o))).
  pose proof (clitable_to_dict_run r st o Ho Hfit) as Hrun.
  split; [exact Hrun|]. split.
  - intros n. rewrite (bind_ret _ _ _ _ _ (call_times_run _ _ _ Hrun n)). exact Hrun.
  - intros r' st' o' Ho' Hh Hr. rewrite <- Hh, <- Hr.
    apply clitable_to_dict_run; [exact Ho'|]. rewrite Hh, Hr. exact Hfit.
Qed.

Lemma clitable_to_dict_pure_witness :
  exists objs,
    clitable_to_dict 0 (mkState [Sample.vlan_table] []) = (Ret objs, mkState [Sample.vlan_table] []) /\
    (forall n, (call_times n (clitable_to_dict 0);; clitable_to_dict 0)
                 (mkState [Sample.vlan_table] [])
               = (Ret objs, mkState [Sample.vlan_table] [])) /\
    (forall r' st' o', heap st' !! r' = Some o' ->
       header o' = header Sample.vlan_table -> rows o' = rows Sample.vlan_table ->
       clitable_to_dict r' st' = (Ret objs, st')).
Proof.
  apply (clitable_to_dict_pure 0 (mkState [Sample.vlan_table] []) Sample.vlan_table).
  - reflexivity.
  - repeat constructor.
Defined.

(** ** The response of [main] when no text was captured *)

Lemma respond_no_text lib module rawtxt commando st :
  truthy rawtxt = false ->
  truthy_list (trigger_device_list module) = false ->
  respond lib module rawtxt commando st = (Exit (ExitJson empty_results), st).
Proof.
  intros Htxt Hlist. unfold respond. rewrite Htxt, Hlist.
  destruct (use_templates module); reflexivity.
Qed.

(** C2, as the code has it: when a run of [main] gets through its checks and
    captures no text (the text is empty) and there is no list of trigger
    devices, [main] signals no error: it ends through [exit_json] with
    [response] and [response_list] both empty. *)
Theorem main_without_text_exits_normally lib w module st
    loc st1 st2 rawtxt commando st3 st4 :
  validate w module st = (Ret loc, st1) ->
  check_templates w module st1 = (Ret tt, st2) ->
  capture w module loc st2 = (Ret (rawtxt, commando), st3) ->
  truthy rawtxt = false ->
  truthy_list (trigger_device_list module) = false ->
  save_local w module rawtxt st3 = (Ret tt, st4) ->
  main lib w module st = (Exit (ExitJson empty_results), st4) /\
  ~ signals_error (outcome (main lib w module) st).
Proof.
  intros Hval Hchk Hcap Htxt Hlist Hsave.
  assert (main lib w module st = (Exit (ExitJson empty_results), st4)) as Hrun.
  { unfold main.
    rewrite (bind_ret _ _ _ _ _ Hval), (bind_ret _ _ _ _ _ Hchk).
    rewrite (bind_ret _ _ _ _ _ Hcap), (bind_ret _ _ _ _ _ Hsave).
    by apply respond_no_text. }
  split; [exact Hrun|]. unfold outcome. rewrite Hrun. cbn. tauto.
Qed.

Lemma main_without_text_exits_normally_witness :
  main (Index.library String.prefix Sample.index Sample.one_vlan)
    (Sample.offline_world "") Sample.show_vlan Sample.start
    = (Exit (ExitJson empty_results),
       mkState [] [EvIsFile "templates//index"; EvIsFile "vlan.txt";
                   EvOpen "vlan.txt" "r"]) /\
  ~ signals_error
      (outcome (main (Index.library String.prefix Sample.index Sample.one_vlan)
                  (Sample.offline_world "") Sample.show_vlan) Sample.start).
Proof.
  apply (main_without_text_exits_normally _ _ _ _ (mkLocals "cisco_ios" 22 1 1)
           (mkState [] [])
           (mkState [] [EvIsFile "templates//index"; EvIsFile "vlan.txt"])
           (PStr "") None
           (mkState [] [EvIsFile "templates//index"; EvIsFile "vlan.txt";
                        EvOpen "vlan.txt" "r"])); reflexivity.
Defined.

(** C2, as the spec has it, fails: offline, with an empty file and no list
    of trigger devices, [main] ends through [exit_json]; neither
    [fail_json] nor an exception tells the caller that there was no text. *)
Lemma no_text_is_no_error :
  capture (Sample.offline_world "") Sample.show_vlan (mkLocals "cisco_ios" 22 1 1)
    (mkState [] [EvIsFile "templates//index"; EvIsFile "vlan.txt"])
    = (Ret (PStr "", None),
       mkState [] [EvIsFile "templates//index"; EvIsFile "vlan.txt";
                   EvOpen "vlan.txt" "r"]) /\
  trigger_device_list Sample.show_vlan = None /\
  outcome (main (Index.library String.prefix Sample.index Sample.one_vlan)
             (Sample.offline_world "") Sample.show_vlan) Sample.start
    = Exit (ExitJson empty_results) /\
  ~ signals_error
      (outcome (main (Index.library String.prefix Sample.index Sample.one_vlan)
                  (Sample.offline_world "") Sample.show_vlan) Sample.start).
Proof.
  split; [reflexivity|]. split; [reflexivity|].
  assert (outcome (main (Index.library String.prefix Sample.index Sample.one_vlan)
             (Sample.offline_world "") Sample.show_vlan) Sample.start
          = Exit (ExitJson empty_results)) as Hrun by (vm_compute; reflexivity).
  split; [exact Hrun|]. rewrite Hrun. cbn. tauto.
Qed.

(** ** What reaches the outside calls *)

Section Emits.

Context {P : event -> Prop}.

Lemma emits_ret {A} (a : A) : emits P (mret a).
Proof. intros st. exists []. rewrite app_nil_r. by split. Qed.

Lemma emits_raise {A} e : emits P (raise e : M A).
Proof. intros st. exists []. rewrite app_nil_r. by split. Qed.

Lemma emits_stop {A} x : emits P (stop x : M A).
Proof. intros st. exists []. rewrite app_nil_r. by split. Qed.

Lemma emits_lift {A} (r : result A) : emits P (lift r).
Proof. destruct r; [apply emits_ret | apply emits_raise]. Qed.

Lemma emits_log ev : P ev -> emits P (log ev).
Proof. intros Hev st. exists [ev]. split; [reflexivity | by constructor]. Qed.

Lemma emits_alloc o : emits P (alloc o).
Proof. intros st. exists []. rewrite app_nil_r. by split. Qed.

Lemma emits_load r : emits P (load r).
Proof.
  intros st. exists []. rewrite app_nil_r. split; [|done].
  unfold final, load. by destruct (heap st !! r).
Qed.

Lemma emits_store r o : emits P (store r o).
Proof. intros st. exists []. rewrite app_nil_r. by split. Qed.

Lemma emits_bind {A B} (m : M A) (f : A -> M B) :
  emits P m -> (forall a, emits P (f a)) -> emits P (m ≫= f).
Proof.
  intros Hm Hf st. destruct (Hm st) as (evs1 & Htr1 & HP1).
  unfold final in *. rewrite bind_run.
  destruct (m st) as [[a|e|x] st'] eqn:Hrun; cbn in Htr1.
  - destruct (Hf a st') as (evs2 & Htr2 & HP2). unfold final in Htr2.
    exists (evs1 ++ evs2). rewrite Htr2, Htr1, app_assoc.
    split; [done | by apply Forall_app].
  - by exists evs1.
  - by exists evs1.
Qed.

Lemma emits_try_except {A} (body handler : M A) catches :
  emits P body -> emits P handler -> emits P (try_except body catches handler).
Proof.
  intros Hb Hh st. destruct (Hb st) as (evs1 & Htr1 & HP1).
  unfold final, try_except in *.
  destruct (body st) as [[a|e|x] st'] eqn:Hrun; cbn in Htr1.
  - by exists evs1.
  - destruct (catches e).
    + destruct (Hh st') as (evs2 & Htr2 & HP2). unfold final in Htr2.
      exists (evs1 ++ evs2). rewrite Htr2, Htr1, app_assoc.
      split; [done | by apply Forall_app].
    + by exists evs1.
  - by exists evs1.
Qed.

Lemma emits_when b m : emits P m -> emits P (when b m).
Proof. intros Hm. destruct b; [exact Hm | apply emits_ret]. Qed.

Lemma emits_getitem {A} (l : list A) i : emits P (getitem l i).
Proof. unfold getitem. destruct (l !! i); [apply emits_ret | apply emits_raise]. Qed.

Lemma emits_dict_getitem d key : emits P (dict_getitem d key).
Proof.
  unfold dict_getitem. destruct d; try apply emits_raise.
  destruct key; [|apply emits_raise].
  destruct (_ !! _); [apply emits_ret | apply emits_raise].
Qed.

Lemma emits_fill_dict r row : forall index d, emits P (fill_dict r index row d).
Proof.
  induction row as [|v row IH]; intros index d; cbn [fill_dict].
  - apply emits_ret.
  - apply emits_bind; [apply emits_load|]. intros o.
    apply emits_bind; [apply emits_getitem|]. intros h. apply IH.
Qed.

Lemma emits_each_row r rs : forall objs, emits P (each_row r rs objs).
Proof.
  induction rs as [|row rs IH]; intros objs; cbn [each_row].
  - apply emits_ret.
  - apply emits_bind; [apply emits_fill_dict|]. intros d. apply IH.
Qed.

Lemma emits_clitable_to_dict r : emits P (clitable_to_dict r).
Proof.
  unfold clitable_to_dict.
  apply emits_bind; [apply emits_load|]. intros o.
  apply emits_bind; [apply emits_each_row|]. intros objs. apply emits_ret.
Qed.

End Emits.

Ltac emits_step :=
  first
    [ apply emits_ret | apply emits_raise | apply emits_stop | apply emits_lift
    | apply emits_load | apply emits_store | apply emits_alloc
    | apply emits_getitem | apply emits_dict_getitem | apply emits_clitable_to_dict
    | apply emits_log; cbn; solve [auto]
    | apply emits_when
    | apply emits_try_except
    | apply emits_bind; [|intros ?]
    | match goal with
      | |- emits _ (let '(_, _) := ?x in _) => destruct x
      end ].

Section Built.

Variables (lib : Library) (w : World) (module : params).

Lemma emits_get_structured_data rawoutput :
  emits (built_from module) (get_structured_data lib rawoutput module).
Proof.
  unfold get_structured_data, new_CliTable, ParseCmd.
  repeat emits_step.
Qed.

Lemma emits_each_device items : forall acc,
  emits (built_from module) (each_device lib items module acc).
Proof.
  induction items as [|[device command_output] items IH]; intros acc; cbn [each_device].
  - apply emits_ret.
  - apply emits_bind; [apply emits_dict_getitem|]. intros raw_txt.
    apply emits_bind; [apply emits_get_structured_data|]. intros sd. apply IH.
Qed.

Lemma emits_parse_raw_output rawoutput :
  emits (built_from module) (parse_raw_output lib rawoutput module).
Proof.
  unfold parse_raw_output.
  destruct rawoutput;
    try (apply emits_bind; [apply emits_get_structured_data | intros ?; apply emits_ret]).
  apply emits_bind; [apply emits_each_device | intros ?; apply emits_ret].
Qed.

Lemma emits_validate : emits (built_from module) (validate w module).
Proof.
  unfold validate, fail_json.
  repeat first
    [ emits_step
    | match goal with
      | |- emits _ (match port ?m with _ => _ end) =>
          destruct (port m) as [r|]; [destruct (raw_truthy r)|]
      end ].
Qed.

Lemma emits_check_templates : emits (built_from module) (check_templates w module).
Proof.
  unfold check_templates, os_path_isfile, fail_json.
  repeat emits_step.
  destruct (file module) as [f|] eqn:Hfile; repeat emits_step.
Qed.

Lemma emits_send_commands_file delay rawtxt :
  emits (built_from module) (send_commands_file w module delay rawtxt).
Proof.
  unfold send_commands_file, os_path_isfile, open, fail_json.
  apply emits_try_except; [|apply emits_stop].
  destruct (commands_file module) as [cf|] eqn:Hcf; [|apply emits_ret].
  destruct (truthy_str (Some cf)); [|apply emits_ret].
  apply emits_bind.
  - apply emits_bind; [|intros ?; apply emits_ret]. apply emits_log. cbn. auto.
  - intros [|]; repeat emits_step.
Qed.

Lemma emits_run_device_list kwargs rawtxt :
  emits (built_from module) (run_device_list w module kwargs rawtxt).
Proof.
  unfold run_device_list.
  destruct (truthy_list (trigger_device_list module)); repeat emits_step.
Qed.

Lemma emits_capture loc :
  emits (built_from module) (capture w module loc).
Proof.
  unfold capture, open, fail_json.
  destruct (str_in _ _).
  { repeat emits_step.
    destruct (command module);
      [destruct (truthy_str _)|];
      repeat (first [apply emits_send_commands_file | emits_step]). }
  destruct (String.eqb _ "trigger_ssh").
  { repeat emits_step.
    destruct (host module);
      [destruct (truthy_str _)|];
      repeat (first [apply emits_run_device_list | emits_step]). }
  destruct (String.eqb _ "offline"); [|apply emits_ret].
  destruct (file module); repeat emits_step.
Qed.

Lemma emits_save_local rawtxt : emits (built_from module) (save_local w module rawtxt).
Proof.
  unfold save_local, open.
  destruct (local_file module); repeat emits_step.
Qed.

Lemma emits_respond rawtxt commando :
  emits (built_from module) (respond lib module rawtxt commando).
Proof.
  unfold respond, commando_results, exit_json.
  apply emits_bind; [|intros ?; apply emits_stop].
  destruct (use_templates module), (truthy rawtxt),
    (truthy_list (trigger_device_list module)), commando;
    repeat (first [apply emits_parse_raw_output | emits_step]).
Qed.

Lemma emits_main : emits (built_from module) (main lib w module).
Proof.
  unfold main.
  apply emits_bind; [apply emits_validate|]. intros loc.
  apply emits_bind; [apply emits_check_templates|]. intros _.
  apply emits_bind; [apply emits_capture|]. intros [rawtxt commando].
  apply emits_bind; [apply emits_save_local|]. intros _.
  apply emits_respond.
Qed.

End Built.

(** ** The trailing slash of [template_dir] *)

Lemma length_append s1 s2 :
  String.length (s1 +:+ s2) = String.length s1 + String.length s2.
Proof. induction s1 as [|a s1 IH]; simpl; [done | by f_equal]. Qed.

Lemma endswith_cons a b s :
  Str.endswith (String a (String b s)) "/" = Str.endswith (String b s) "/".
Proof.
  unfold Str.endswith. cbn [String.length Nat.leb Nat.sub andb].
  rewrite !Nat.sub_0_r. reflexivity.
Qed.

Lemma rstrip_shorter s :
  Str.endswith s "/" = true ->
  String.length (Str.rstrip "/" s) < String.length s.
Proof.
  induction s as [|a s IH]; intros Hend; [discriminate|].
  destruct s as [|b s].
  - unfold Str.endswith in Hend. cbn in Hend.
    revert Hend. cbn [Str.rstrip].
    destruct (Ascii.eqb a "/"); cbn; [lia | discriminate].
  - rewrite endswith_cons in Hend. specialize (IH Hend).
    cbn [Str.rstrip] in *. cbn [String.length] in *.
    destruct (match Str.rstrip "/" s with
              | "" => if Ascii.eqb b "/" then "" else String b ""
              | String a0 s0 => String b (String a0 s0)
              end) as [|c t] eqn:Hr.
    + destruct (Ascii.eqb a "/"); cbn; lia.
    + cbn [String.length] in *. lia.
Qed.

(** Computations whose first outside call is [ev]. *)
Lemma first_event_log {A} ev (k : M A) st :
  emits (fun _ => True) k ->
  exists evs, trace (final (log ev;; k) st) = trace st ++ ev :: evs.
Proof.
  intros Hk. unfold final. rewrite bind_run. cbn.
  destruct (Hk (mkState (heap st) (trace st ++ [ev]))) as (evs & Htr & _).
  exists evs. unfold final in Htr. rewrite Htr. cbn. by rewrite <- app_assoc.
Qed.

Lemma first_event_bind {A B} ev (m : M A) (f : A -> M B) :
  (forall st, exists evs, trace (final m st) = trace st ++ ev :: evs) ->
  (forall a, emits (fun _ => True) (f a)) ->
  forall st, exists evs, trace (final (m ≫= f) st) = trace st ++ ev :: evs.
Proof.
  intros Hm Hf st. destruct (Hm st) as (evs1 & Htr1).
  unfold final in *. rewrite bind_run.
  destruct (m st) as [[a|e|x] st'] eqn:Hrun; cbn in Htr1; [|by exists evs1..].
  destruct (Hf a st') as (evs2 & Htr2 & _). unfold final in Htr2.
  exists (evs1 ++ evs2). rewrite Htr2, Htr1, <- app_assoc. reflexivity.
Qed.

Lemma check_templates_first_event w module st :
  use_templates module = true ->
  exists evs, trace (final (check_templates w module) st)
    = trace st ++ EvIsFile (template_dir module +:+ "/" +:+ index_file module) :: evs.
Proof.
  intros Huse. unfold check_templates. rewrite Huse.
  assert (forall st', when (Str.endswith (template_dir module) "/")
            (_ ← mret (Str.rstrip "/" (template_dir module)); mret tt) st'
          = (Ret tt, st')) as Hpure.
  { intros st'. by destruct (Str.endswith _ _). }
  unfold final. rewrite (bind_ret _ _ _ _ _ (Hpure st)).
  unfold when at 1, os_path_isfile.
  apply (first_event_bind _ (log _;; mret _)).
  - intros st'. apply first_event_log, emits_ret.
  - intros found. unfold fail_json. repeat emits_step.
    destruct (file module); repeat emits_step.
Qed.

Lemma get_structured_data_first_event lib rawoutput module st :
  exists evs, trace (final (get_structured_data lib rawoutput module) st)
    = trace st ++ EvCliTable (index_file module) (template_dir module) :: evs.
Proof.
  unfold get_structured_data, new_CliTable, ParseCmd.
  apply first_event_bind.
  - intros st'. apply first_event_log. repeat emits_step.
  - intros r. repeat emits_step.
Qed.

(** C9: when [template_dir] ends in a slash, stripping it would change it,
    but the stripped value is dropped: the existence check of the index
    file is made on [template_dir + '/' + index_file] with [template_dir]
    as given, which is not the path the stripped directory would give, and
    [CliTable] is built on [template_dir] as given; in a whole run of
    [main] no file check and no [CliTable] receives anything else. *)
Theorem trailing_slash_is_kept lib w module st :
  Str.endswith (template_dir module) "/" = true ->
  Str.rstrip "/" (template_dir module) <> template_dir module /\
  (use_templates module = true ->
   exists evs, trace (final (check_templates w module) st)
     = trace st ++ EvIsFile (template_dir module +:+ "/" +:+ index_file module) :: evs) /\
  template_dir module +:+ "/" +:+ index_file module
    <> Str.rstrip "/" (template_dir module) +:+ "/" +:+ index_file module /\
  (forall rawoutput,
   exists evs, trace (final (get_structured_data lib rawoutput module) st)
     = trace st ++ EvCliTable (index_file module) (template_dir module) :: evs) /\
  (exists evs, trace (final (main lib w module) st) = trace st ++ evs /\
               Forall (built_from module) evs).
Proof.
  intros Hend. pose proof (rstrip_shorter _ Hend) as Hlen.
  split; [intros Heq; rewrite Heq in Hlen; lia|].
  split; [apply check_templates_first_event|].
  split.
  { intros Heq. apply (f_equal String.length) in Heq.
    rewrite !length_append in Heq. lia. }
  split; [intros rawoutput; apply get_structured_data_first_event|].
  apply emits_main.
Qed.

Lemma trailing_slash_is_kept_witness :
  Str.rstrip "/" "templates/" <> "templates/" /\
  (use_templates Sample.show_vlan = true ->
   exists evs, trace (final (check_templates (Sample.offline_world "") Sample.show_vlan)
                        Sample.start)
     = trace Sample.start ++ EvIsFile "templates//index" :: evs) /\
  "templates//index" <> Str.rstrip "/" "templates/" +:+ "/" +:+ "index" /\
  (forall rawoutput,
   exists evs, trace (final (get_structured_data
                               (Index.library String.prefix Sample.index Sample.one_vlan)
                               rawoutput Sample.show_vlan) Sample.start)
     = trace Sample.start ++ EvCliTable "index" "templates/" :: evs) /\
  (exists evs, trace (final (main (Index.library String.prefix Sample.index Sample.one_vlan)
                               (Sample.offline_world "") Sample.show_vlan) Sample.start)
                 = trace Sample.start ++ evs /\
               Forall (built_from Sample.show_vlan) evs).
Proof.
  apply (trailing_slash_is_kept
           (Index.library String.prefix Sample.index Sample.one_vlan)
           (Sample.offline_world "") Sample.show_vlan Sample.start).
  reflexivity.
Defined.

(** ** One entry per device *)

Section PerDevice.

Variables (lib : Library) (module : params).

Lemma each_device_all items : forall acc st,
  Forall (fun item => structures_text lib module item.2) items ->
  Forall (fun item => has_command item.2 (command module)) items ->
  exists entries st',
    each_device lib items module acc st = (Ret (acc ++ entries), st') /\
    Forall2 (entry_for lib module) entries items.
Proof.
  induction items as [|[device out] items IH]; intros acc st Hstruct Hall.
  - exists [], st. rewrite app_nil_r. by split.
  - apply Forall_cons in Hall as [(m & k & raw_txt & Hout & Hk & Hm) Hall].
    apply Forall_cons in Hstruct as [Hthis Hstruct].
    cbn in Hout, Hthis. subst out.
    destruct (Hthis m k raw_txt eq_refl Hk Hm st) as (sd & st1 & Hsd).
    set (temp := PDict (<["device" := PStr device]> (<["response" := sd]> ∅))).
    destruct (IH (acc ++ [temp]) st1 Hstruct Hall) as (entries & st' & Hrun & Hentries).
    exists (temp :: entries), st'. split.
    + cbn [each_device dict_getitem]. rewrite Hk, Hm.
      rewrite (bind_ret _ _ st raw_txt st) by reflexivity.
      rewrite (bind_ret _ _ _ _ _ Hsd).
      fold temp. rewrite Hrun, <- app_assoc. reflexivity.
    + constructor; [|exact Hentries].
      exists m, k, raw_txt, sd, st, st1. done.
Qed.

Lemma each_device_lacking items : forall acc st,
  Forall (fun item => structures_text lib module item.2) items ->
  Forall (fun item => exists m, item.2 = PDict m) items ->
  Exists (fun item => lacks_command item.2 (command module)) items ->
  exists st', each_device lib items module acc st = (Raise KeyError, st').
Proof.
  induction items as [|[device out] items IH]; intros acc st Hstruct Hdict Hlack.
  - by apply Exists_nil in Hlack.
  - apply Forall_cons in Hdict as [[m Hm] Hdict].
    apply Forall_cons in Hstruct as [Hthis Hstruct].
    cbn in Hm, Hthis. subst out.
    cbn [each_device dict_getitem].
    destruct (command module) as [k|] eqn:Hk; [|by exists st].
    destruct (m !! k) as [raw_txt|] eqn:Hraw; [|by exists st].
    rewrite (bind_ret _ _ st raw_txt st) by reflexivity.
    destruct (Hthis m k raw_txt eq_refl Hk Hraw st) as (sd & st1 & Hsd).
    rewrite (bind_ret _ _ _ _ _ Hsd).
    apply IH; [exact Hstruct | exact Hdict |].
    apply Exists_cons in Hlack as [(m' & Hm' & Hnone)|Hlack]; [|exact Hlack].
    cbn in Hm'. simplify_eq. rewrite (Hnone k eq_refl) in Hraw. discriminate.
Qed.

End PerDevice.

(** C10, as the code has it: for a per-device mapping whose entries are
    dictionaries, when [get_structured_data] comes back with a result for
    the text that each device holds under the command, [parse_raw_output]
    returns one [{device, response}] entry for each device of the mapping
    if the command is a key of every entry, and raises [KeyError], without
    any raw-text fallback, if some entry lacks it. *)
Theorem parse_raw_output_per_device lib d module st :
  (forall device out, d !! device = Some out -> structures_text lib module out) ->
  (forall device out, d !! device = Some out -> exists m, out = PDict m) ->
  ((forall device out, d !! device = Some out -> has_command out (command module)) ->
   exists entries,
     outcome (parse_raw_output lib (PDict d) module) st = Ret (PList entries) /\
     length entries = size d /\
     Forall2 (entry_for lib module) entries (map_to_list d)) /\
  ((exists device out, d !! device = Some out /\ lacks_command out (command module)) ->
   outcome (parse_raw_output lib (PDict d) module) st = Raise KeyError).
Proof.
  intros Hsd Hdict.
  assert (Forall (fun item => structures_text lib module item.2) (map_to_list d))
    as Hstruct.
  { apply Forall_forall. intros [device out] Hin.
    apply elem_of_map_to_list in Hin. by apply (Hsd device). }
  split.
  - intros Hhas.
    destruct (each_device_all lib module (map_to_list d) [] st Hstruct)
      as (entries & st' & Hrun & Hentries).
    { apply Forall_forall. intros [device out] Hin.
      apply elem_of_map_to_list in Hin. by apply (Hhas device). }
    exists entries. split; [|split].
    + unfold outcome, parse_raw_output. rewrite (bind_ret _ _ _ _ _ Hrun). reflexivity.
    + rewrite (Forall2_length _ _ _ Hentries). apply length_map_to_list.
    + exact Hentries.
  - intros (device & out & Hout & Hlack).
    destruct (each_device_lacking lib module (map_to_list d) [] st Hstruct)
      as (st' & Hrun).
    { apply Forall_forall. intros [device' out'] Hin.
      apply elem_of_map_to_list in Hin. by apply (Hdict device'). }
    { apply Exists_exists. exists (device, out).
      split; [by apply elem_of_map_to_list | exact Hlack]. }
    unfold outcome, parse_raw_output. rewrite (bind_raise _ _ _ _ _ Hrun). reflexivity.
Qed.

Lemma picky_structures_vlan st :
  exists sd st',
    get_structured_data (Index.library String.prefix Sample.index Cases.picky)
      (PStr "1 default active") Sample.show_vlan st = (Ret sd, st').
Proof.
  eexists _, _.
  apply (get_structured_data_parse_ok _ _ _ _ tt Sample.vlan_header
           [[PStr "1"; PStr "default"; PStr "active"]]);
    [reflexivity | reflexivity | repeat constructor].
Qed.

Lemma picky_structures_texts m :
  (m = {[ "show vlan" := PStr "1 default active" ]} \/
   m = {[ "show version" := PStr "IOS 15.2" ]}) ->
  structures_text (Index.library String.prefix Sample.index Cases.picky)
    Sample.show_vlan (PDict m).
Proof.
  intros Hm m' k raw_txt Heq Hk Hraw st. cbn in Hk. simplify_eq.
  destruct Hm as [->| ->].
  - apply lookup_singleton_Some in Hraw as [_ <-]. apply picky_structures_vlan.
  - by apply lookup_singleton_Some in Hraw as [? _].
Qed.

Lemma one_switch_entries device out :
  Sample.one_switch !! device = Some out ->
  out = PDict {[ "show vlan" := PStr "1 default active" ]}.
Proof.
  unfold Sample.one_switch. intros Hout.
  by apply lookup_singleton_Some in Hout as [_ <-].
Qed.

Lemma two_switches_entries device out :
  Cases.two_switches !! device = Some out ->
  out = PDict {[ "show vlan" := PStr "1 default active" ]} \/
  out = PDict {[ "show version" := PStr "IOS 15.2" ]}.
Proof.
  unfold Cases.two_switches. intros Hout.
  apply lookup_insert_Some in Hout as [[_ <-]|[_ Hout]]; [by left|].
  apply lookup_singleton_Some in Hout as [_ <-]. by right.
Qed.

Lemma parse_raw_output_per_device_witness :
  (exists entries,
     outcome (parse_raw_output (Index.library String.prefix Sample.index Cases.picky)
                (PDict Sample.one_switch) Sample.show_vlan) Sample.start
       = Ret (PList entries) /\
     length entries = size Sample.one_switch /\
     Forall2 (entry_for (Index.library String.prefix Sample.index Cases.picky)
                Sample.show_vlan)
       entries (map_to_list Sample.one_switch)) /\
  outcome (parse_raw_output (Index.library String.prefix Sample.index Cases.picky)
             (PDict Cases.two_switches) Sample.show_vlan) Sample.start
    = Raise KeyError.
Proof.
  split.
  - apply (parse_raw_output_per_device
             (Index.library String.prefix Sample.index Cases.picky)
             Sample.one_switch Sample.show_vlan Sample.start).
    + intros device out Hout. rewrite (one_switch_entries _ _ Hout).
      apply picky_structures_texts. by left.
    + intros device out Hout. rewrite (one_switch_entries _ _ Hout). by eexists.
    + intros device out Hout. rewrite (one_switch_entries _ _ Hout).
      by exists {[ "show vlan" := PStr "1 default active" ]}, "show vlan",
        (PStr "1 default active").
  - apply (parse_raw_output_per_device
             (Index.library String.prefix Sample.index Cases.picky)
             Cases.two_switches Sample.show_vlan Sample.start).
    + intros device out Hout.
      destruct (two_switches_entries _ _ Hout) as [->| ->];
        apply picky_structures_texts; [by left | by right].
    + intros device out Hout.
      destruct (two_switches_entries _ _ Hout) as [->| ->]; by eexists.
    + exists "sw2", (PDict {[ "show version" := PStr "IOS 15.2" ]}).
      split; [reflexivity|].
      exists {[ "show version" := PStr "IOS 15.2" ]}. split; [reflexivity|].
      intros k Hk. cbn in Hk. by simplify_eq.
Defined.

(** C10, as the spec has it, fails: the one device holds the command as a
    key, the engine raises [TextFSMError] on its text, and
    [parse_raw_output] raises it on instead of returning the entry of the
    device. *)
Lemma engine_error_leaves_no_entry :
  map_to_list Sample.one_switch
    = [("sw1", PDict {[ "show vlan" := PStr "1 default active" ]})] /\
  ({[ "show vlan" := PStr "1 default active" ]} : gmap string pyval)
    !! "show vlan" = Some (PStr "1 default active") /\
  command Sample.show_vlan = Some "show vlan" /\
  outcome (parse_raw_output (Index.library String.prefix Sample.index Sample.error_rule)
             (PDict Sample.one_switch) Sample.show_vlan) Sample.start
    = Raise TextFSMError.
Proof.
  split; [vm_compute; reflexivity|]. split; [reflexivity|]. split; [reflexivity|].
  vm_compute. reflexivity.
Qed.

(** ** Runs on the samples *)

(** Offline, the index selects a template and the engine finds one record:
    [response] holds the record under the lower-cased headers. *)
Example main_structures_the_text :
  outcome (main (Index.library String.prefix Sample.index Sample.one_vlan)
             (Sample.offline_world "1 default active") Sample.show_vlan) Sample.start
  = Exit (ExitJson
      (<["response" :=
           PList [PDict (<["vlan_id" := PStr "1"]>
                        (<["name" := PStr "default"]>
                        (<["status" := PStr "active"]> ∅)))]]> empty_results)).
Proof. vm_compute. reflexivity. Qed.

(** With an index that has no entry for the command the text comes back as
    it was read. *)
Example main_falls_back_to_the_text :
  outcome (main (Index.library String.prefix [] Sample.one_vlan)
             (Sample.offline_world "1 default active") Sample.show_vlan) Sample.start
  = Exit (ExitJson (<["response" := PList [PStr "1 default active"]]> empty_results)).
Proof. vm_compute. reflexivity. Qed.

(** A row with more values than there are headers: [header[index]] raises. *)
Example clitable_to_dict_long_row :
  outcome (clitable_to_dict 0)
    (mkState [mkCliTable "index" "templates" ["A"] [[PStr "x"; PStr "y"]]] [])
  = Raise IndexError.
Proof. reflexivity. Qed.

(** An exception of the constructor is raised before the [try] block and
    is not caught, whatever its class. *)
Example constructor_error_propagates :
  outcome (get_structured_data
             (mkLibrary (fun _ _ => Err CliTableError) (fun _ _ _ _ _ => Err CliTableError))
             (PStr "1 default active") Sample.show_vlan) Sample.start
  = Raise CliTableError.
Proof. reflexivity. Qed.

(** The trigger results of one switch, structured per device. *)
Example parse_raw_output_one_switch :
  outcome (parse_raw_output (Index.library String.prefix Sample.index Sample.one_vlan)
             (PDict Sample.one_switch) Sample.show_vlan) Sample.start
  = Ret (PList
      [PDict (<["device" := PStr "sw1"]>
             (<["response" :=
                  PList [PDict (<["vlan_id" := PStr "1"]>
                               (<["name" := PStr "default"]>
                               (<["status" := PStr "active"]> ∅)))]]> ∅))]).
Proof. vm_compute. reflexivity. Qed.

(** * Further properties *)

(** ** The normalizer at its bounds *)

Lemma each_row_overflow r st o rs : forall objs,
  heap st !! r = Some o ->
  ~ Forall (fits (header o)) rs ->
  each_row r rs objs st = (Raise IndexError, st).
Proof.
  induction rs as [|row rs IH]; intros objs Ho Hnot.
  - destruct Hnot. constructor.
  - cbn [each_row].
    destruct (decide (length row <= length (header o))) as [Hfit|Hlong].
    + rewrite (bind_ret _ _ _ _ _ (fill_dict_run r st o row 0 ∅ Ho Hfit)).
      apply IH; [exact Ho|]. intros Hrest. apply Hnot. by constructor.
    + apply bind_raise. apply (fill_dict_overflow r st o); [exact Ho|].
      rewrite drop_0. lia.
Qed.

(** Every run of [clitable_to_dict] leaves the state as it was, and ends in
    one of three ways. *)
Lemma clitable_to_dict_cases r st :
  (exists o, heap st !! r = Some o /\ Forall (fits (header o)) (rows o) /\
     clitable_to_dict r st = (Ret (PList (table_dicts (header o) (rows o))), st)) \/
  (exists o, heap st !! r = Some o /\ ~ Forall (fits (header o)) (rows o) /\
     clitable_to_dict r st = (Raise IndexError, st)) \/
  (heap st !! r = None /\ clitable_to_dict r st = (Raise UnboundLocalError, st)).
Proof.
  destruct (heap st !! r) as [o|] eqn:Ho.
  - destruct (decide (Forall (fits (header o)) (rows o))) as [Hfit|Hnot].
    + left. exists o. split; [done|]. split; [done|].
      by apply clitable_to_dict_run.
    + right. left. exists o. split; [done|]. split; [done|].
      unfold clitable_to_dict.
      rewrite (bind_ret _ _ _ _ _ (load_run _ _ _ Ho)).
      apply bind_raise. by apply (each_row_overflow r st o).
  - right. right. split; [done|].
    unfold clitable_to_dict. apply bind_raise. unfold load. by rewrite Ho.
Qed.

(** X1: one row with more values than there are headers makes
    [clitable_to_dict] raise [IndexError]; the records of the rows before
    it are lost with it, and the state is left as it was. *)
Theorem clitable_to_dict_long_row_raises r st o row :
  heap st !! r = Some o ->
  row ∈ rows o ->
  length (header o) < length row ->
  clitable_to_dict r st = (Raise IndexError, st).
Proof.
  intros Ho Hin Hlong.
  destruct (clitable_to_dict_cases r st)
    as [(o' & Ho' & Hfit & _)|[(o' & Ho' & _ & Hrun)|[Hnone _]]]; simplify_eq.
  - rewrite Forall_forall in Hfit. specialize (Hfit row Hin). unfold fits in Hfit. lia.
  - exact Hrun.
Qed.

Lemma clitable_to_dict_long_row_raises_witness :
  clitable_to_dict 0 (mkState [Cases.long_row_table] [])
    = (Raise IndexError, mkState [Cases.long_row_table] []).
Proof.
  apply (clitable_to_dict_long_row_raises 0 _ Cases.long_row_table
           [PStr "10"; PStr "users"; PStr "active"]).
  - reflexivity.
  - cbn. apply list_elem_of_further, list_elem_of_here.
  - cbn. lia.
Defined.

Lemma lower_ascii_idemp c : Str.lower_ascii (Str.lower_ascii c) = Str.lower_ascii c.
Proof. destruct c as [[] [] [] [] [] [] [] []]; reflexivity. Qed.

Lemma lower_idemp s : Str.lower (Str.lower s) = Str.lower s.
Proof.
  induction s as [|c s IH]; [reflexivity|].
  cbn [Str.lower]. by rewrite lower_ascii_idemp, IH.
Qed.

(** X2: whatever the case of the headers, every field name of every record
    that [clitable_to_dict] returns is in lower case. *)
Theorem clitable_to_dict_keys_lower_case r st objs st' d key :
  clitable_to_dict r st = (Ret (PList objs), st') ->
  PDict d ∈ objs ->
  is_Some (d !! key) ->
  Str.lower key = key.
Proof.
  intros Hrun Hin [v Hkey].
  destruct (clitable_to_dict_cases r st)
    as [(o & Ho & Hfit & Hrun')|[(o & _ & _ & Hrun')|[_ Hrun']]];
    rewrite Hrun' in Hrun; simplify_eq.
  unfold table_dicts in Hin. apply list_elem_of_fmap in Hin as (row & Hd & _).
  simplify_eq.
  apply row_dict_lookup_inv in Hkey as [Hkey|(j & h & _ & _ & <-)].
  - by rewrite lookup_empty in Hkey.
  - apply lower_idemp.
Qed.

Lemma clitable_to_dict_keys_lower_case_witness :
  Str.lower "vlan_id" = "vlan_id".
Proof.
  apply (clitable_to_dict_keys_lower_case 0 (mkState [Sample.vlan_table] [])
           (table_dicts (header Sample.vlan_table) (rows Sample.vlan_table))
           (mkState [Sample.vlan_table] [])
           (row_dict (header Sample.vlan_table)
              [PStr "1"; PStr "default"; PStr "active"] ∅)).
  - reflexivity.
  - apply list_elem_of_here.
  - exists (PStr "1"). reflexivity.
Defined.

(** ** [get_structured_data] outside the fallback *)

Lemma get_structured_data_parse_overflow lib rawoutput module st u h rs :
  lib_init lib (index_file module) (template_dir module) = Ok u ->
  lib_parse lib (index_file module) (template_dir module) rawoutput
    (command module) (platform module) = Ok (h, rs) ->
  ~ Forall (fits h) rs ->
  get_structured_data lib rawoutput module st =
    (Raise IndexError,
     parsed_state rawoutput module st
       (mkCliTable (index_file module) (template_dir module) h rs)).
Proof.
  intros Hinit Hparse Hnot. unfold get_structured_data.
  set (i := index_file module). set (d := template_dir module).
  rewrite (bind_ret _ _ _ _ _ (new_CliTable_ok lib i d st u Hinit)).
  erewrite try_except_raise.
  2:{ erewrite bind_ret.
      2:{ apply (ParseCmd_ok _ _ _ _ _ _ (mkCliTable i d [] [])); [|exact Hparse].
          cbn. by apply list_lookup_middle. }
      cbn [ct_index_file ct_template_dir heap trace].
      rewrite insert_app_r_alt, Nat.sub_diag, <- app_assoc by lia.
      cbn [insert list_insert app].
      destruct (clitable_to_dict_cases (length (heap st))
                  (mkState (heap st ++ [mkCliTable i d h rs])
                     (trace st ++ [EvCliTable i d;
                        EvParseCmd rawoutput (command module) (platform module)])))
        as [(o & Ho & Hfit & _)|[(o & Ho & _ & Hrun)|[Hnone _]]].
      - cbn in Ho. rewrite list_lookup_middle in Ho by done. simplify_eq. done.
      - exact Hrun.
      - cbn in Hnone. rewrite list_lookup_middle in Hnone by done. done. }
  reflexivity.
Qed.

(** X3: an exception of the [CliTable] constructor leaves
    [get_structured_data], and [parse_raw_output] on a text, as it is,
    whatever its class: the constructor runs before the [try] block, so
    even a [CliTableError] is not turned into the raw-text result.
    [ParseCmd] is never called. *)
Theorem constructor_error_is_not_absorbed lib (raw_text : string) module st e :
  lib_init lib (index_file module) (template_dir module) = Err e ->
  get_structured_data lib (PStr raw_text) module st
    = (Raise e, mkState (heap st)
                  (trace st ++ [EvCliTable (index_file module) (template_dir module)])) /\
  parse_raw_output lib (PStr raw_text) module st
    = (Raise e, mkState (heap st)
                  (trace st ++ [EvCliTable (index_file module) (template_dir module)])).
Proof.
  intros Hinit.
  pose proof (get_structured_data_init_err lib (PStr raw_text) module st e Hinit) as Hrun.
  split; [exact Hrun|].
  unfold parse_raw_output. by apply bind_raise.
Qed.

Lemma constructor_error_is_not_absorbed_witness :
  get_structured_data Cases.broken_index (PStr "1 default active") Sample.show_vlan
    Sample.start
    = (Raise CliTableError, mkState [] [EvCliTable "index" "templates/"]) /\
  parse_raw_output Cases.broken_index (PStr "1 default active") Sample.show_vlan
    Sample.start
    = (Raise CliTableError, mkState [] [EvCliTable "index" "templates/"]).
Proof.
  apply (constructor_error_is_not_absorbed Cases.broken_index "1 default active"
           Sample.show_vlan Sample.start CliTableError).
  reflexivity.
Defined.

(** X4: when [ParseCmd] leaves a row with more values than there are
    headers, the [IndexError] of the normalizer is raised inside the [try]
    block and is not caught: [get_structured_data] raises it and returns
    neither records nor the raw text. *)
Theorem long_row_is_not_absorbed lib rawoutput module st u h rs row :
  lib_init lib (index_file module) (template_dir module) = Ok u ->
  lib_parse lib (index_file module) (template_dir module) rawoutput
    (command module) (platform module) = Ok (h, rs) ->
  row ∈ rs ->
  length h < length row ->
  outcome (get_structured_data lib rawoutput module) st = Raise IndexError.
Proof.
  intros Hinit Hparse Hin Hlong. unfold outcome.
  rewrite (get_structured_data_parse_overflow lib _ _ st u h rs Hinit Hparse);
    [reflexivity|].
  intros Hfit. rewrite Forall_forall in Hfit.
  specialize (Hfit row Hin). unfold fits in Hfit. lia.
Qed.

Lemma long_row_is_not_absorbed_witness :
  outcome (get_structured_data (Index.library String.prefix Sample.index Cases.long_row)
             (PStr "1 default active") Sample.show_vlan) Sample.start
    = Raise IndexError.
Proof.
  apply (long_row_is_not_absorbed _ _ _ _ tt (header Cases.long_row_table)
           (rows Cases.long_row_table) [PStr "10"; PStr "users"; PStr "active"]).
  - reflexivity.
  - reflexivity.
  - cbn. apply list_elem_of_further, list_elem_of_here.
  - cbn. lia.
Defined.

(** X5: once the constructor has returned, a call of [get_structured_data]
    makes exactly two calls into the library, whatever [ParseCmd] answers:
    [CliTable] on [index_file] and [template_dir], then [ParseCmd] on the
    text as it was given and on the [command] and [platform] of the
    parameters.  It adds one table to the heap and touches none of the
    tables built before. *)
Theorem get_structured_data_library_calls lib rawoutput module st u :
  lib_init lib (index_file module) (template_dir module) = Ok u ->
  exists o,
    trace (final (get_structured_data lib rawoutput module) st)
      = trace st ++ [EvCliTable (index_file module) (template_dir module);
                     EvParseCmd rawoutput (command module) (platform module)] /\
    heap (final (get_structured_data lib rawoutput module) st) = heap st ++ [o].
Proof.
  intros Hinit. unfold final.
  destruct (lib_parse lib (index_file module) (template_dir module) rawoutput
              (command module) (platform module)) as [[h rs]|e] eqn:Hparse.
  - destruct (decide (Forall (fits h) rs)) as [Hfit|Hnot].
    + rewrite (get_structured_data_parse_ok lib _ _ st u h rs Hinit Hparse Hfit).
      by eexists.
    + rewrite (get_structured_data_parse_overflow lib _ _ st u h rs Hinit Hparse Hnot).
      by eexists.
  - rewrite (get_structured_data_parse_err lib _ _ st u e Hinit Hparse). by eexists.
Qed.

Lemma get_structured_data_library_calls_witness :
  exists o,
    trace (final (get_structured_data
                    (Index.library String.prefix Sample.index Sample.error_rule)
                    (PStr "% Invalid input") Sample.show_vlan) Sample.start)
      = trace Sample.start ++ [EvCliTable "index" "templates/";
                               EvParseCmd (PStr "% Invalid input") (Some "show vlan")
                                 "cisco_ios"] /\
    heap (final (get_structured_data
                   (Index.library String.prefix Sample.index Sample.error_rule)
                   (PStr "% Invalid input") Sample.show_vlan) Sample.start)
      = heap Sample.start ++ [o].
Proof.
  apply (get_structured_data_library_calls
           (Index.library String.prefix Sample.index Sample.error_rule)
           (PStr "% Invalid input") Sample.show_vlan Sample.start tt).
  reflexivity.
Defined.

(** ** What [parse_raw_output] returns *)

Lemma get_structured_data_returns_list lib rawoutput module st v st' :
  get_structured_data lib rawoutput module st = (Ret v, st') ->
  exists l, v = PList l.
Proof.
  intros Hrun.
  destruct (lib_init lib (index_file module) (template_dir module)) as [u|e] eqn:Hinit.
  - destruct (lib_parse lib (index_file module) (template_dir module) rawoutput
                (command module) (platform module)) as [[h rs]|e] eqn:Hparse.
    + destruct (decide (Forall (fits h) rs)) as [Hfit|Hnot].
      * rewrite (get_structured_data_parse_ok lib _ _ st u h rs Hinit Hparse Hfit)
          in Hrun.
        simplify_eq. by eexists.
      * rewrite (get_structured_data_parse_overflow lib _ _ st u h rs Hinit Hparse Hnot)
          in Hrun.
        discriminate.
    + rewrite (get_structured_data_parse_err lib _ _ st u e Hinit Hparse) in Hrun.
      destruct e; cbn in Hrun; simplify_eq. by eexists.
  - rewrite (get_structured_data_init_err lib _ _ st e Hinit) in Hrun. discriminate.
Qed.

Lemma py_or_empty_dict v : py_or (PDict ∅) v = v.
Proof. unfold py_or. cbn. by rewrite bool_decide_eq_true_2. Qed.

Lemma py_or_list l : py_or (PList l) (PList []) = PList l.
Proof. by destruct l. Qed.

Lemma parse_raw_output_no_dict lib rawoutput module st :
  (forall d, rawoutput <> PDict d) ->
  parse_raw_output lib rawoutput module st = get_structured_data lib rawoutput module st.
Proof.
  intros Hnodict.
  assert ((structured_data ← get_structured_data lib rawoutput module;
           mret (py_or structured_data (PList []))) st
          = get_structured_data lib rawoutput module st) as Hsame.
  { rewrite bind_run.
    destruct (get_structured_data lib rawoutput module st) as [[v|e|x] st'] eqn:Hrun;
      [|reflexivity..].
    destruct (get_structured_data_returns_list _ _ _ _ _ _ Hrun) as [l ->].
    cbn. by rewrite py_or_list. }
  destruct rawoutput; try exact Hsame. exfalso. by apply (Hnodict d).
Qed.

(** X6: on anything but a dictionary (the text of one device),
    [parse_raw_output] is [get_structured_data]: same result or exception,
    same calls; the [or] of its last line never replaces a result. *)
Theorem parse_raw_output_on_text lib rawoutput module st :
  (forall d, rawoutput <> PDict d) ->
  parse_raw_output lib rawoutput module st = get_structured_data lib rawoutput module st.
Proof.
  intros Hnodict. by apply parse_raw_output_no_dict.
Qed.

Lemma parse_raw_output_on_text_witness :
  parse_raw_output (Index.library String.prefix Sample.index Sample.one_vlan)
    (PStr "1 default active") Sample.show_vlan Sample.start
  = get_structured_data (Index.library String.prefix Sample.index Sample.one_vlan)
      (PStr "1 default active") Sample.show_vlan Sample.start.
Proof.
  apply parse_raw_output_on_text. intros d. discriminate.
Defined.

(** X7: whatever it is given, a text or the per-device results, what
    [parse_raw_output] returns is a list, never a dictionary. *)
Theorem parse_raw_output_returns_list lib rawoutput module st v st' :
  parse_raw_output lib rawoutput module st = (Ret v, st') ->
  exists l, v = PList l.
Proof.
  intros Hrun.
  assert ((forall d, rawoutput <> PDict d) -> exists l, v = PList l) as Htext.
  { intros Hnodict. rewrite parse_raw_output_no_dict in Hrun by exact Hnodict.
    by apply (get_structured_data_returns_list _ _ _ _ _ _ Hrun). }
  destruct rawoutput as [| | | |d]; try (apply Htext; intros d; discriminate).
  unfold parse_raw_output in Hrun. rewrite bind_run in Hrun.
  destruct (each_device lib (map_to_list d) module [] st) as [[l|e|x] st1];
    [|discriminate..].
  cbn in Hrun. rewrite py_or_empty_dict in Hrun.
  unfold mret, M_ret in Hrun. simplify_eq. by eexists.
Qed.

Lemma parse_raw_output_returns_list_witness :
  exists l,
    PList [PDict (<["device" := PStr "sw1"]>
                 (<["response" :=
                      PList [PDict (<["vlan_id" := PStr "1"]>
                                   (<["name" := PStr "default"]>
                                   (<["status" := PStr "active"]> ∅)))]]> ∅))]
    = PList l.
Proof.
  apply (parse_raw_output_returns_list
           (Index.library String.prefix Sample.index Sample.one_vlan)
           (PDict Sample.one_switch) Sample.show_vlan Sample.start _
           (final (parse_raw_output
                     (Index.library String.prefix Sample.index Sample.one_vlan)
                     (PDict Sample.one_switch) Sample.show_vlan) Sample.start)).
  vm_compute. reflexivity.
Defined.

(** ** When the raw text comes back *)

Lemma raw_text_result_inv lib (raw_text : string) module st :
  outcome (get_structured_data lib (PStr raw_text) module) st
    = Ret (PList [PStr raw_text]) ->
  lib_parse lib (index_file module) (template_dir module) (PStr raw_text)
    (command module) (platform module) = Err CliTableError.
Proof.
  unfold outcome. intros Hout.
  destruct (lib_init lib (index_file module) (template_dir module)) as [u|e] eqn:Hinit.
  - destruct (lib_parse lib (index_file module) (template_dir module) (PStr raw_text)
                (command module) (platform module)) as [[h rs]|e] eqn:Hparse.
    + exfalso.
      destruct (decide (Forall (fits h) rs)) as [Hfit|Hnot].
      * rewrite (get_structured_data_parse_ok lib _ _ st u h rs Hinit Hparse Hfit)
          in Hout.
        cbn in Hout. unfold table_dicts in Hout.
        destruct rs as [|row rs]; cbn in Hout; simplify_eq.
      * rewrite (get_structured_data_parse_overflow lib _ _ st u h rs Hinit Hparse Hnot)
          in Hout.
        discriminate.
    + rewrite (get_structured_data_parse_err lib _ _ st u e Hinit Hparse) in Hout.
      destruct e; cbn in Hout; by simplify_eq.
  - rewrite (get_structured_data_init_err lib _ _ st e Hinit) in Hout. discriminate.
Qed.

(** C3, as the code has it: for every raw text and a template whose rules
    match nothing in it, so that [ParseCmd] returns without a row, the
    result is the empty list of records and not the raw-text fallback, from
    [get_structured_data] and from [parse_raw_output] alike; and the raw
    text comes back from either only through the handler of
    [CliTableError]: whenever the result is the list that holds the text
    alone, [ParseCmd] has raised [CliTableError] on it. *)
Theorem no_match_returns_no_records lib (raw_text : string) module st :
  (forall u h,
     lib_init lib (index_file module) (template_dir module) = Ok u ->
     lib_parse lib (index_file module) (template_dir module) (PStr raw_text)
       (command module) (platform module) = Ok (h, []) ->
     outcome (get_structured_data lib (PStr raw_text) module) st = Ret (PList []) /\
     outcome (parse_raw_output lib (PStr raw_text) module) st = Ret (PList []) /\
     outcome (parse_raw_output lib (PStr raw_text) module) st
       <> Ret (PList [PStr raw_text])) /\
  (outcome (get_structured_data lib (PStr raw_text) module) st
     = Ret (PList [PStr raw_text]) ->
   lib_parse lib (index_file module) (template_dir module) (PStr raw_text)
     (command module) (platform module) = Err CliTableError) /\
  (outcome (parse_raw_output lib (PStr raw_text) module) st
     = Ret (PList [PStr raw_text]) ->
   lib_parse lib (index_file module) (template_dir module) (PStr raw_text)
     (command module) (platform module) = Err CliTableError).
Proof.
  split; [|split].
  - intros u h Hinit Hparse.
    pose proof (get_structured_data_parse_ok lib _ _ st u h [] Hinit Hparse
                  (Forall_nil_2 _)) as Hrun.
    assert (outcome (parse_raw_output lib (PStr raw_text) module) st = Ret (PList []))
      as Hout.
    { unfold outcome, parse_raw_output. rewrite (bind_ret _ _ _ _ _ Hrun). reflexivity. }
    split; [|split].
    + unfold outcome. rewrite Hrun. reflexivity.
    + exact Hout.
    + rewrite Hout. discriminate.
  - apply raw_text_result_inv.
  - unfold outcome. rewrite parse_raw_output_no_dict by (intros d; discriminate).
    apply raw_text_result_inv.
Qed.

Lemma no_match_returns_no_records_witness :
  (outcome (get_structured_data (Index.library String.prefix Sample.index Sample.no_match)
              (PStr "% Invalid input") Sample.show_vlan) Sample.start = Ret (PList []) /\
   outcome (parse_raw_output (Index.library String.prefix Sample.index Sample.no_match)
              (PStr "% Invalid input") Sample.show_vlan) Sample.start = Ret (PList []) /\
   outcome (parse_raw_output (Index.library String.prefix Sample.index Sample.no_match)
              (PStr "% Invalid input") Sample.show_vlan) Sample.start
     <> Ret (PList [PStr "% Invalid input"])) /\
  lib_parse (Index.library String.prefix [] Sample.no_match)
    "index" "templates/" (PStr "% Invalid input") (Some "show vlan") "cisco_ios"
    = Err CliTableError.
Proof.
  split.
  - apply (proj1 (no_match_returns_no_records
                    (Index.library String.prefix Sample.index Sample.no_match)
                    "% Invalid input" Sample.show_vlan Sample.start)
             tt Sample.vlan_header); reflexivity.
  - apply (proj1 (proj2 (no_match_returns_no_records
                           (Index.library String.prefix [] Sample.no_match)
                           "% Invalid input" Sample.show_vlan Sample.start))).
    reflexivity.
Defined.

(** ** The checks on the parameters *)

Lemma bind_exit {A B} (m : M A) (f : A -> M B) st x st' :
  m st = (Exit x, st') -> (m ≫= f) st = (Exit x, st').
Proof. intros H. rewrite bind_run, H. reflexivity. Qed.

Lemma bind_ret_inv {A B} (m : M A) (f : A -> M B) st b st' :
  (m ≫= f) st = (Ret b, st') ->
  exists a st1, m st = (Ret a, st1) /\ f a st1 = (Ret b, st').
Proof.
  rewrite bind_run. destruct (m st) as [[a|e|x] st1]; [|discriminate..].
  intros Hf. by exists a, st1.
Qed.

Lemma when_ret_inv b m st u st' :
  when b m st = (Ret u, st') ->
  (b = false /\ st' = st) \/ (b = true /\ m st = (Ret u, st')).
Proof.
  destruct b; cbn; intros H; [by right|]. left. unfold mret, M_ret in H. by simplify_eq.
Qed.

Lemma when_fail_inv b msg st u st' :
  when b (fail_json msg) st = (Ret u, st') -> b = false /\ st' = st.
Proof. intros H. by apply when_ret_inv in H as [H|[_ H]]. Qed.

Lemma silent_ret {A} (a : A) : silent (mret a).
Proof. by intros st. Qed.

Lemma silent_stop {A} x : silent (stop x : M A).
Proof. by intros st. Qed.

Lemma silent_bind {A B} (m : M A) (f : A -> M B) :
  silent m -> (forall a, silent (f a)) -> silent (m ≫= f).
Proof.
  intros Hm Hf st. specialize (Hm st). unfold final in *. rewrite bind_run.
  destruct (m st) as [[a|e|x] st1]; cbn in Hm; subst st1; [apply Hf|done..].
Qed.

Lemma silent_when b m : silent m -> silent (when b m).
Proof. intros Hm. destruct b; [exact Hm | apply silent_ret]. Qed.

Lemma silent_lift {A} (r : result A) : silent (lift r).
Proof. by destruct r. Qed.

Lemma silent_validate w module : silent (validate w module).
Proof.
  unfold validate, fail_json.
  repeat first
    [ apply silent_ret | apply silent_stop | apply silent_when | apply silent_lift
    | apply silent_bind; [|intros ?]
    | match goal with
      | |- silent (match port ?m with _ => _ end) =>
          destruct (port m) as [r|]; [destruct (raw_truthy r)|]
      end ].
Qed.

Lemma lift_ret_inv {A} (r : result A) st a st' :
  lift r st = (Ret a, st') -> r = Ok a /\ st' = st.
Proof. destruct r; cbn; unfold mret, M_ret, raise; intros H; by simplify_eq. Qed.

(** X8: a run that gets past the checks on the parameters has touched
    nothing, and from there on: TextFSM is installed; [delay] and
    [global_delay_factor] were read by [int]; a netmiko connection has a
    host; a telnet connection is to [cisco_ios], with the device type
    [cisco_ios_telnet]; any other connection has the platform up to its
    first dash as device type; a connection other than [offline] has a
    host or a list of trigger devices; [offline] has a file.  A port that
    is given and true (the string ['0'] is) is the port [int] reads from
    it; without one the port is 23 over telnet, and 22 over any other
    connection unless the platform itself reads [cisco_ios_telnet]. *)
Theorem validate_guarantees w module st loc st' :
  validate w module st = (Ret loc, st') ->
  st' = st /\
  HAS_TEXTFSM w = true /\
  int (delay module) = Ok (loc_delay loc) /\
  int (global_delay_factor module) = Ok (loc_global_delay_factor loc) /\
  (str_in (connection module) netmiko_connections = true ->
     truthy_str (host module) = true) /\
  (str_in (connection module) telnet_connections = true ->
     platform module = "cisco_ios" /\ loc_device_type loc = "cisco_ios_telnet") /\
  (str_in (connection module) telnet_connections = false ->
     loc_device_type loc = Str.split_head "-" (platform module)) /\
  (connection module <> "offline" ->
     truthy_str (host module) = true \/
     truthy_list (trigger_device_list module) = true) /\
  (connection module = "offline" -> truthy_str (file module) = true) /\
  (forall r, port module = Some r -> raw_truthy r = true ->
     int r = Ok (loc_port loc)) /\
  (truthy_raw (port module) = false ->
     str_in (connection module) telnet_connections = true ->
     loc_port loc = 23%Z) /\
  (truthy_raw (port module) = false ->
     str_in (connection module) telnet_connections = false ->
     Str.split_head "-" (platform module) <> "cisco_ios_telnet" ->
     loc_port loc = 22%Z).
Proof.
  intros Hrun.
  pose proof (silent_validate w module st) as Hst.
  unfold final in Hst. rewrite Hrun in Hst. cbn in Hst.
  split; [exact Hst|]. clear Hst.
  unfold validate in Hrun.
  apply bind_ret_inv in Hrun as (? & st1 & H1 & Hrun).
  apply when_fail_inv in H1 as [H1 ->].
  apply bind_ret_inv in Hrun as (d & ? & Hd & Hrun).
  apply lift_ret_inv in Hd as [Hd ->].
  apply bind_ret_inv in Hrun as (g & ? & Hg & Hrun).
  apply lift_ret_inv in Hg as [Hg ->].
  apply bind_ret_inv in Hrun as (? & st2 & H2 & Hrun).
  apply when_fail_inv in H2 as [H2 ->].
  apply bind_ret_inv in Hrun as (? & st3 & H3 & Hrun).
  apply when_fail_inv in H3 as [H3 ->].
  apply bind_ret_inv in Hrun as (p & st4 & Hp & Hrun).
  apply bind_ret_inv in Hrun as (? & st5 & H4 & Hrun).
  apply bind_ret_inv in Hrun as (? & st6 & H5 & Hrun).
  apply when_fail_inv in H5 as [H5 ->].
  unfold mret, M_ret in Hrun. injection Hrun as <- _. cbn.
  apply negb_false_iff in H1.
  apply andb_false_iff in H2, H3, H5.
  unfold netmiko_connections, telnet_connections.
  split; [exact H1|]. split; [exact Hd|]. split; [exact Hg|].
  split.
  { intros Hc. destruct H2 as [H2|H2]; [congruence|]. by apply negb_false_iff in H2. }
  split.
  { intros Hc. destruct H3 as [H3|H3]; [congruence|].
    apply negb_false_iff, String.eqb_eq in H3. split; [exact H3|].
    rewrite Hc, H3. reflexivity. }
  split.
  { intros Hc. rewrite Hc, andb_false_r. reflexivity. }
  split.
  { intros Hoff. apply String.eqb_neq in Hoff.
    apply when_ret_inv in H4 as [[H4 _]|[_ H4]].
    - rewrite Hoff in H4. discriminate.
    - apply when_fail_inv in H4 as [H4 _].
      apply andb_false_iff in H4 as [H4|H4]; apply negb_false_iff in H4; auto. }
  split.
  { intros Hoff. apply String.eqb_eq in Hoff.
    destruct H5 as [H5|H5]; [congruence|]. by apply negb_false_iff in H5. }
  split.
  { intros r Hr Htrue. rewrite Hr, Htrue in Hp.
    by apply lift_ret_inv in Hp as [Hp _]. }
  assert (truthy_raw (port module) = false ->
          p = if String.eqb
                   (if String.eqb (platform module) "cisco_ios"
                       && str_in (connection module) ["netmiko_telnet"; "telnet"]
                    then "cisco_ios_telnet"
                    else Str.split_head "-" (platform module))
                   "cisco_ios_telnet"
              then 23%Z else 22%Z) as Hdefault.
  { intros Hfalse. unfold truthy_raw in Hfalse.
    destruct (port module) as [r|]; [rewrite Hfalse in Hp|];
      unfold mret, M_ret in Hp; by simplify_eq. }
  split.
  { intros Hfalse Hc. rewrite (Hdefault Hfalse).
    destruct H3 as [H3|H3]; [congruence|].
    apply negb_false_iff in H3. rewrite H3, Hc. reflexivity. }
  intros Hfalse Hc Hplat. rewrite (Hdefault Hfalse), Hc, andb_false_r.
  apply String.eqb_neq in Hplat. by rewrite Hplat.
Qed.

Lemma validate_guarantees_witness :
  (forall r, port Cases.telnet_port_zero = Some r -> raw_truthy r = true ->
     int r = Ok 0%Z) /\
  (truthy_raw (port Cases.telnet_host) = false ->
     str_in (connection Cases.telnet_host) telnet_connections = true ->
     23%Z = 23%Z) /\
  (truthy_raw (port Cases.offline_raw) = false ->
     str_in (connection Cases.offline_raw) telnet_connections = false ->
     Str.split_head "-" (platform Cases.offline_raw) <> "cisco_ios_telnet" ->
     22%Z = 22%Z).
Proof.
  split; [|split].
  - apply (validate_guarantees Cases.bare_world Cases.telnet_port_zero Sample.start
             (mkLocals "cisco_ios_telnet" 0 1 1) Sample.start).
    reflexivity.
  - apply (validate_guarantees Cases.bare_world Cases.telnet_host Sample.start
             (mkLocals "cisco_ios_telnet" 23 1 1) Sample.start).
    reflexivity.
  - apply (validate_guarantees Cases.bare_world Cases.offline_raw Sample.start
             (mkLocals "cisco_ios" 22 1 1) Sample.start).
    reflexivity.
Defined.

(** X9: when the checks on the parameters reject them, [main] ends in that
    very [fail_json] and has touched nothing: no file looked for, no
    device contacted, no table built. *)
Theorem rejected_parameters_touch_nothing lib w module st x :
  outcome (validate w module) st = Exit x ->
  main lib w module st = (Exit x, st).
Proof.
  intros Hout. pose proof (silent_validate w module st) as Hst.
  unfold outcome, final in *. unfold main. rewrite bind_run.
  destruct (validate w module st) as [r st1]. cbn in Hout, Hst. by subst.
Qed.

Lemma rejected_parameters_touch_nothing_witness :
  main (Index.library String.prefix Sample.index Sample.one_vlan)
    Cases.bare_world Cases.telnet_no_host Sample.start
  = (Exit (FailJson "specify host when connection=ssh/netmiko_ssh/netmiko_telnet"),
     Sample.start).
Proof.
  apply rejected_parameters_touch_nothing. reflexivity.
Defined.

(** ** The index file *)

Lemma check_templates_missing_index w module st :
  use_templates module = true ->
  isfile w (template_dir module +:+ "/" +:+ index_file module) = false ->
  check_templates w module st =
    (Exit (FailJson "could not find or read index file"),
     mkState (heap st)
       (trace st ++ [EvIsFile (template_dir module +:+ "/" +:+ index_file module)])).
Proof.
  intros Huse Hmissing. unfold check_templates. rewrite Huse.
  assert (forall st', when (Str.endswith (template_dir module) "/")
            (_ ← mret (Str.rstrip "/" (template_dir module)); mret tt) st'
          = (Ret tt, st')) as Hpure.
  { intros st'. by destruct (Str.endswith _ _). }
  rewrite (bind_ret _ _ _ _ _ (Hpure st)).
  unfold when at 1, os_path_isfile. rewrite !bind_run. cbn.
  rewrite Hmissing. reflexivity.
Qed.

(** X10: with templates in use and no index file under
    [template_dir + '/' + index_file], a run that got past the checks on
    the parameters ends in [fail_json]; the one thing it has done is to
    look for that file: no device is contacted and no text is read. *)
Theorem missing_index_fails_before_contact lib w module st loc :
  outcome (validate w module) st = Ret loc ->
  use_templates module = true ->
  isfile w (template_dir module +:+ "/" +:+ index_file module) = false ->
  main lib w module st =
    (Exit (FailJson "could not find or read index file"),
     mkState (heap st)
       (trace st ++ [EvIsFile (template_dir module +:+ "/" +:+ index_file module)])).
Proof.
  intros Hout Huse Hmissing.
  pose proof (silent_validate w module st) as Hst.
  unfold outcome, final in *. unfold main. rewrite bind_run.
  destruct (validate w module st) as [r st1]. cbn in Hout, Hst. subst r st1.
  apply bind_exit. by apply check_templates_missing_index.
Qed.

Lemma missing_index_fails_before_contact_witness :
  main (Index.library String.prefix Sample.index Sample.one_vlan)
    Cases.bare_world Cases.telnet_host Sample.start
  = (Exit (FailJson "could not find or read index file"),
     mkState [] [EvIsFile "templates/index"]).
Proof.
  apply (missing_index_fails_before_contact
           (Index.library String.prefix Sample.index Sample.one_vlan)
           Cases.bare_world Cases.telnet_host Sample.start
           (mkLocals "cisco_ios_telnet" 23 1 1));
    reflexivity.
Defined.

(** ** Which calls a run can make *)

Lemma silent_emits {A} (P : event -> Prop) (m : M A) : silent m -> emits P m.
Proof.
  intros Hm st. exists []. rewrite app_nil_r. split; [|done]. by rewrite (Hm st).
Qed.

Section Kinds.

Variable P : event -> Prop.
Variables (lib : Library) (w : World) (module : params).

Lemma emits_get_structured_data_of rawoutput :
  (forall ev, is_library_event ev = true -> P ev) ->
  emits P (get_structured_data lib rawoutput module).
Proof.
  intros Hlib. unfold get_structured_data, new_CliTable, ParseCmd.
  repeat emits_step.
Qed.

Lemma emits_parse_raw_output_of rawoutput :
  (forall ev, is_library_event ev = true -> P ev) ->
  emits P (parse_raw_output lib rawoutput module).
Proof.
  intros Hlib.
  assert (forall items acc, emits P (each_device lib items module acc)) as Hloop.
  { induction items as [|[device command_output] items IH]; intros acc;
      cbn [each_device].
    - apply emits_ret.
    - apply emits_bind; [apply emits_dict_getitem|]. intros raw_txt.
      apply emits_bind; [by apply emits_get_structured_data_of|]. intros sd. apply IH. }
  unfold parse_raw_output.
  destruct rawoutput;
    try (apply emits_bind;
         [by apply emits_get_structured_data_of | intros ?; apply emits_ret]).
  apply emits_bind; [apply Hloop | intros ?; apply emits_ret].
Qed.

Lemma emits_respond_of rawtxt commando :
  (forall ev, is_library_event ev = true -> P ev) ->
  emits P (respond lib module rawtxt commando).
Proof.
  intros Hlib. unfold respond, commando_results, exit_json.
  apply emits_bind; [|intros ?; apply emits_stop].
  destruct (use_templates module), (truthy rawtxt),
    (truthy_list (trigger_device_list module)), commando;
    repeat (first [by apply emits_parse_raw_output_of | emits_step]).
Qed.

Lemma emits_check_templates_of :
  (forall path, P (EvIsFile path)) -> emits P (check_templates w module).
Proof.
  intros Hfile. unfold check_templates, os_path_isfile, fail_json.
  repeat emits_step.
  destruct (file module); repeat emits_step.
Qed.

Lemma emits_save_local_of rawtxt :
  (forall path mode, P (EvOpen path mode)) -> emits P (save_local w module rawtxt).
Proof.
  intros Hopen. unfold save_local, open.
  destruct (local_file module); repeat emits_step.
Qed.

Lemma emits_capture_of loc :
  (forall ev, is_library_event ev = false -> P ev) ->
  emits P (capture w module loc).
Proof.
  intros Hkind.
  assert (forall delay rawtxt, emits P (send_commands_file w module delay rawtxt))
    as Hfile.
  { intros delay rawtxt. unfold send_commands_file, os_path_isfile, open, fail_json.
    apply emits_try_except; [|apply emits_stop].
    destruct (commands_file module) as [cf|]; [|apply emits_ret].
    destruct (truthy_str (Some cf)); [|apply emits_ret].
    apply emits_bind; [repeat emits_step|].
    intros [|]; repeat emits_step. }
  assert (forall kwargs rawtxt, emits P (run_device_list w module kwargs rawtxt))
    as Hlist.
  { intros kwargs rawtxt. unfold run_device_list.
    destruct (truthy_list (trigger_device_list module)); repeat emits_step. }
  unfold capture, open, fail_json.
  destruct (str_in _ _).
  { repeat emits_step.
    destruct (command module);
      [destruct (truthy_str _)|];
      repeat (first [apply Hfile | emits_step]). }
  destruct (String.eqb _ "trigger_ssh").
  { repeat emits_step.
    destruct (host module);
      [destruct (truthy_str _)|];
      repeat (first [apply Hlist | emits_step]). }
  destruct (String.eqb _ "offline"); [|apply emits_ret].
  destruct (file module); repeat emits_step.
Qed.

Lemma emits_capture_offline loc :
  connection module = "offline" ->
  (forall path mode, P (EvOpen path mode)) ->
  emits P (capture w module loc).
Proof.
  intros Hoff Hopen. unfold capture, open. rewrite Hoff.
  change (str_in "offline" ["ssh"; "netmiko_ssh"; "netmiko_telnet"; "telnet"])
    with false.
  cbn [String.eqb Ascii.eqb Bool.eqb].
  destruct (file module); repeat emits_step.
Qed.

End Kinds.

(** X11: an [offline] run never reaches a device: whatever the other
    parameters and whatever the files hold, no netmiko session is opened,
    no command is sent and no trigger run is started. *)
Theorem offline_contacts_no_device lib w module st :
  connection module = "offline" ->
  exists evs,
    trace (final (main lib w module) st) = trace st ++ evs /\
    Forall (fun ev => is_device_event ev = false) evs.
Proof.
  intros Hoff.
  assert (forall ev, is_library_event ev = true -> is_device_event ev = false) as Hlib.
  { by intros []. }
  enough (emits (fun ev => is_device_event ev = false) (main lib w module)) as Hm
    by exact (Hm st).
  unfold main.
  apply emits_bind; [apply silent_emits, silent_validate|]. intros loc.
  apply emits_bind; [by apply emits_check_templates_of|]. intros _.
  apply emits_bind; [by apply emits_capture_offline|]. intros [rawtxt commando].
  apply emits_bind; [by apply emits_save_local_of|]. intros _.
  by apply emits_respond_of.
Qed.

Lemma offline_contacts_no_device_witness :
  exists evs,
    trace (final (main (Index.library String.prefix Sample.index Sample.one_vlan)
                    (Sample.offline_world "1 default active") Sample.show_vlan)
             Sample.start)
      = trace Sample.start ++ evs /\
    Forall (fun ev => is_device_event ev = false) evs.
Proof.
  apply offline_contacts_no_device. reflexivity.
Defined.

Lemma silent_respond_raw lib module rawtxt commando :
  use_templates module = false -> silent (respond lib module rawtxt commando).
Proof.
  intros Huse st. unfold respond, commando_results, final. rewrite Huse.
  destruct (truthy rawtxt); [reflexivity|].
  destruct (truthy_list (trigger_device_list module)); [|reflexivity].
  by destruct commando.
Qed.

(** X12: with [use_templates] off the library is left alone: the index
    file is not looked for, and in the whole run no [CliTable] is built
    and [ParseCmd] is not called. *)
Theorem without_templates_no_library lib w module st :
  use_templates module = false ->
  check_templates w module st = (Ret tt, st) /\
  exists evs,
    trace (final (main lib w module) st) = trace st ++ evs /\
    Forall (fun ev => is_library_event ev = false) evs.
Proof.
  intros Huse. split.
  - unfold check_templates. rewrite Huse.
    by destruct (Str.endswith (template_dir module) "/").
  - enough (emits (fun ev => is_library_event ev = false) (main lib w module)) as Hm
      by exact (Hm st).
    unfold main.
    apply emits_bind; [apply silent_emits, silent_validate|]. intros loc.
    apply emits_bind; [by apply emits_check_templates_of|]. intros _.
    apply emits_bind; [by apply emits_capture_of|]. intros [rawtxt commando].
    apply emits_bind; [by apply emits_save_local_of|]. intros _.
    by apply silent_emits, silent_respond_raw.
Qed.

Lemma without_templates_no_library_witness :
  check_templates (Sample.offline_world "1 default active") Cases.offline_raw
    Sample.start = (Ret tt, Sample.start) /\
  exists evs,
    trace (final (main (Index.library String.prefix Sample.index Sample.one_vlan)
                    (Sample.offline_world "1 default active") Cases.offline_raw)
             Sample.start)
      = trace Sample.start ++ evs /\
    Forall (fun ev => is_library_event ev = false) evs.
Proof.
  apply without_templates_no_library. reflexivity.
Defined.

(** ** An empty text *)





(** ** Whole runs *)

Lemma truthy_text t : t <> "" -> truthy (PStr t) = true.
Proof. intros Ht. cbn. apply negb_true_iff. by apply String.eqb_neq. Qed.

Lemma numbers_readable_plain module d g :
  int (delay module) = Ok d ->
  int (global_delay_factor module) = Ok g ->
  port module = None ->
  numbers_readable module.
Proof.
  intros Hd Hg Hport. split; [by exists d|]. split; [by exists g|].
  intros r Hr. rewrite Hport in Hr. discriminate.
Qed.

Lemma validate_offline w module st :
  HAS_TEXTFSM w = true ->
  connection module = "offline" ->
  truthy_str (file module) = true ->
  numbers_readable module ->
  exists loc, validate w module st = (Ret loc, st).
Proof.
  intros Htf Hoff Hfile ((d & Hd) & (g & Hg) & Hport).
  unfold validate, when. rewrite Htf, Hoff, Hfile, Hd, Hg.
  change (str_in "offline" ["ssh"; "netmiko_ssh"; "netmiko_telnet"; "telnet"])
    with false.
  change (str_in "offline" ["netmiko_telnet"; "telnet"]) with false.
  destruct (port module) as [r|]; [|by eexists].
  destruct (raw_truthy r) eqn:Hr; [|by eexists].
  destruct (Hport r eq_refl Hr) as [z ->]. by eexists.
Qed.

Lemma check_templates_found w module st f :
  use_templates module = true ->
  isfile w (template_dir module +:+ "/" +:+ index_file module) = true ->
  file module = Some f ->
  isfile w f = true ->
  check_templates w module st =
    (Ret tt,
     mkState (heap st)
       (trace st ++ [EvIsFile (template_dir module +:+ "/" +:+ index_file module)]
                 ++ (if truthy_str (Some f) then [EvIsFile f] else []))).
Proof.
  intros Huse Hindex Hfile Hf. unfold check_templates. rewrite Huse, Hfile.
  assert (forall st', when (Str.endswith (template_dir module) "/")
            (_ ← mret (Str.rstrip "/" (template_dir module)); mret tt) st'
          = (Ret tt, st')) as Hpure.
  { intros st'. by destruct (Str.endswith _ _). }
  rewrite (bind_ret _ _ _ _ _ (Hpure st)).
  unfold when at 1, os_path_isfile. rewrite !bind_run. cbn.
  rewrite Hindex, Hf. cbn.
  destruct (negb (f =? "")); repeat (rewrite bind_run; cbn); [|reflexivity].
  by rewrite <- app_assoc.
Qed.

Lemma capture_offline w module loc st f t :
  connection module = "offline" ->
  file module = Some f ->
  file_read w f = Ok t ->
  capture w module loc st =
    (Ret (PStr t, None), mkState (heap st) (trace st ++ [EvOpen f "r"])).
Proof.
  intros Hoff Hfile Hread. unfold capture, open. rewrite Hoff, Hfile.
  change (str_in "offline" ["ssh"; "netmiko_ssh"; "netmiko_telnet"; "telnet"])
    with false.
  cbn [String.eqb Ascii.eqb Bool.eqb]. rewrite !bind_run. cbn.
  rewrite Hread. reflexivity.
Qed.

(** X13: when no template is found for a text (the constructor returns and
    [ParseCmd] raises [CliTableError]), the run with templates answers
    exactly what a run without templates answers: the text alone in
    [response], and nothing in [response_list]. *)
Theorem fallback_is_raw_mode lib module module' (raw_text : string)
    commando commando' st st' u :
  raw_text <> "" ->
  use_templates module = true ->
  lib_init lib (index_file module) (template_dir module) = Ok u ->
  lib_parse lib (index_file module) (template_dir module) (PStr raw_text)
    (command module) (platform module) = Err CliTableError ->
  use_templates module' = false ->
  outcome (respond lib module (PStr raw_text) commando) st
    = Exit (ExitJson (<["response" := PList [PStr raw_text]]> empty_results)) /\
  outcome (respond lib module' (PStr raw_text) commando') st'
    = Exit (ExitJson (<["response" := PList [PStr raw_text]]> empty_results)).
Proof.
  intros Htext Huse Hinit Hparse Hraw.
  pose proof (truthy_text _ Htext) as Htruthy.
  split; unfold outcome, respond.
  - rewrite Huse, Htruthy.
    pose proof (get_structured_data_parse_err lib (PStr raw_text) module st u
                  CliTableError Hinit Hparse) as Hrun.
    unfold parse_raw_output. rewrite !bind_run, Hrun. reflexivity.
  - rewrite Hraw, Htruthy. reflexivity.
Qed.

Lemma fallback_is_raw_mode_witness :
  outcome (respond (Index.library String.prefix [] Sample.one_vlan) Sample.show_vlan
             (PStr "1 default active") None) Sample.start
    = Exit (ExitJson (<["response" := PList [PStr "1 default active"]]> empty_results)) /\
  outcome (respond (Index.library String.prefix [] Sample.one_vlan) Cases.offline_raw
             (PStr "1 default active") None) Sample.start
    = Exit (ExitJson (<["response" := PList [PStr "1 default active"]]> empty_results)).
Proof.
  apply (fallback_is_raw_mode _ _ _ _ _ _ _ _ tt); try reflexivity. discriminate.
Defined.

(** X14: an offline run from end to end.  With TextFSM installed, the index
    file and the raw file in place, the file holding a text that is not
    empty, and the library answering that text with a header and rows that
    fit it, [main] ends through [exit_json] with one record per row in
    [response] and an empty [response_list]. *)
Theorem offline_run_structures lib w module st f t u h rs :
  HAS_TEXTFSM w = true ->
  connection module = "offline" ->
  file module = Some f ->
  f <> "" ->
  local_file module = None ->
  use_templates module = true ->
  isfile w (template_dir module +:+ "/" +:+ index_file module) = true ->
  isfile w f = true ->
  file_read w f = Ok t ->
  t <> "" ->
  lib_init lib (index_file module) (template_dir module) = Ok u ->
  lib_parse lib (index_file module) (template_dir module) (PStr t)
    (command module) (platform module) = Ok (h, rs) ->
  Forall (fits h) rs ->
  numbers_readable module ->
  outcome (main lib w module) st
    = Exit (ExitJson (<["response" := PList (table_dicts h rs)]> empty_results)).
Proof.
  intros Htf Hoff Hfile Hf Hlocal Huse Hindex Hisfile Hread Ht Hinit Hparse Hfit Hnum.
  assert (truthy_str (file module) = true) as Hfile_given.
  { rewrite Hfile. by apply truthy_text. }
  destruct (validate_offline w module st Htf Hoff Hfile_given Hnum) as (loc & Hval).
  unfold outcome, main.
  rewrite (bind_ret _ _ _ _ _ Hval).
  rewrite (bind_ret _ _ _ _ _
             (check_templates_found w module st f Huse Hindex Hfile Hisfile)).
  rewrite (bind_ret _ _ _ _ _ (capture_offline w module loc _ f t Hoff Hfile Hread)).
  unfold save_local. rewrite Hlocal.
  rewrite (bind_ret _ _ _ tt _) by reflexivity.
  unfold respond. rewrite Huse, (truthy_text _ Ht).
  unfold parse_raw_output. rewrite !bind_run.
  rewrite (get_structured_data_parse_ok lib (PStr t) module _ u h rs Hinit Hparse Hfit).
  cbn. rewrite py_or_list. reflexivity.
Qed.

Lemma offline_run_structures_witness :
  outcome (main (Index.library String.prefix Sample.index Sample.one_vlan)
             (Sample.offline_world "1 default active") Sample.show_vlan) Sample.start
    = Exit (ExitJson
        (<["response" :=
             PList (table_dicts Sample.vlan_header
                      [[PStr "1"; PStr "default"; PStr "active"]])]> empty_results)).
Proof.
  apply (offline_run_structures _ _ _ _ "vlan.txt" "1 default active" tt);
    try reflexivity; try discriminate.
  - repeat constructor.
  - by apply (numbers_readable_plain _ 1%Z 1%Z).
Defined.

(** ** The [commando] object *)

Ltac inv_bind H := apply bind_ret_inv in H as (? & ? & ? & H).

(** [commando] is bound in the [trigger_ssh] branch only. *)
Lemma capture_commando w module loc st rawtxt results st' :
  capture w module loc st = (Ret (rawtxt, Some results), st') ->
  connection module = "trigger_ssh".
Proof.
  unfold capture.
  destruct (str_in (connection module) _).
  { intros Hrun. exfalso. do 4 inv_bind Hrun. revert Hrun.
    destruct (command module) as [c|]; [destruct (truthy_str (Some c))|];
      intros Hrun; repeat inv_bind Hrun; unfold mret, M_ret in Hrun; discriminate. }
  destruct (String.eqb (connection module) "trigger_ssh") eqn:Htrig;
    [intros _; by apply String.eqb_eq|].
  destruct (String.eqb (connection module) "offline").
  - destruct (file module); [|discriminate].
    intros Hrun. repeat inv_bind Hrun. unfold mret, M_ret in Hrun. discriminate.
  - unfold mret, M_ret. discriminate.
Qed.

(** X15: [commando] exists only after a [trigger_ssh] run.  When another
    connection captures no text while a list of trigger devices is given,
    [main] reaches for [commando.results] and ends in an
    [UnboundLocalError] instead of an answer. *)
Theorem unbound_commando lib w module st loc st1 st2 rawtxt commando st3 st4 :
  connection module <> "trigger_ssh" ->
  validate w module st = (Ret loc, st1) ->
  check_templates w module st1 = (Ret tt, st2) ->
  capture w module loc st2 = (Ret (rawtxt, commando), st3) ->
  truthy rawtxt = false ->
  truthy_list (trigger_device_list module) = true ->
  save_local w module rawtxt st3 = (Ret tt, st4) ->
  main lib w module st = (Raise UnboundLocalError, st4).
Proof.
  intros Hconn Hval Hchk Hcap Htxt Hlist Hsave.
  assert (commando = None) as ->.
  { destruct commando as [results|]; [|reflexivity].
    destruct Hconn. by apply (capture_commando _ _ _ _ _ _ _ Hcap). }
  unfold main.
  rewrite (bind_ret _ _ _ _ _ Hval), (bind_ret _ _ _ _ _ Hchk).
  rewrite (bind_ret _ _ _ _ _ Hcap), (bind_ret _ _ _ _ _ Hsave).
  unfold respond. rewrite Htxt, Hlist.
  by destruct (use_templates module).
Qed.

Lemma unbound_commando_witness :
  main (Index.library String.prefix Sample.index Sample.one_vlan)
    (Sample.offline_world "") Cases.offline_with_devices Sample.start
  = (Raise UnboundLocalError,
     mkState [] [EvIsFile "templates/index"; EvIsFile "vlan.txt";
                 EvOpen "vlan.txt" "r"]).
Proof.
  apply (unbound_commando
           (Index.library String.prefix Sample.index Sample.one_vlan)
           (Sample.offline_world "") Cases.offline_with_devices Sample.start
           (mkLocals "cisco_ios" 22 1 1) Sample.start
           (mkState [] [EvIsFile "templates/index"; EvIsFile "vlan.txt"])
           (PStr "") None
           (mkState [] [EvIsFile "templates/index"; EvIsFile "vlan.txt";
                        EvOpen "vlan.txt" "r"]));
    try reflexivity.
  discriminate.
Defined.

(** ** The commands file *)

(** X16: over a netmiko connection without a command, a [commands_file]
    that is no file is passed over in silence: the session is opened,
    nothing is sent, no error is signalled, and the captured text is
    empty. *)
Theorem missing_commands_file_is_ignored w module loc st cf u :
  str_in (connection module) netmiko_connections = true ->
  HAS_NETMIKO w = true ->
  ConnectHandler w (loc_device_type loc) (host module) (loc_port loc)
    (username module) (password module) (secret module) (use_keys module)
    (key_file module) (loc_global_delay_factor loc)
    = Ok u ->
  truthy_str (secret module) = false ->
  truthy_str (command module) = false ->
  commands_file module = Some cf ->
  isfile w cf = false ->
  capture w module loc st =
    (Ret (PStr "", None),
     mkState (heap st)
       (trace st ++ [EvConnect (loc_device_type loc) (host module) (loc_port loc)]
                 ++ (if truthy_str (Some cf) then [EvIsFile cf] else []))).
Proof.
  intros Hconn Hnet Hok Hsecret Hcommand Hfile Hmissing.
  unfold netmiko_connections in Hconn.
  unfold capture. rewrite Hconn, Hnet, Hsecret.
  unfold when at 1. rewrite (bind_ret _ _ st tt st) by reflexivity.
  rewrite bind_run. cbn [log]. rewrite bind_run, Hok. cbn [lift].
  unfold mret at 1, M_ret at 1. cbn [when].
  rewrite (bind_ret _ _ _ tt _) by reflexivity.
  assert (forall st0,
            send_commands_file w module (loc_delay loc) (PStr "") st0 =
              (Ret (PStr ""),
               mkState (heap st0)
                 (trace st0 ++ (if truthy_str (Some cf) then [EvIsFile cf] else []))))
    as Hsend.
  { intros st0. unfold send_commands_file, try_except, os_path_isfile.
    rewrite Hfile. destruct (truthy_str (Some cf)).
    - repeat (rewrite bind_run; cbn). rewrite Hmissing. reflexivity.
    - cbn. rewrite app_nil_r. by destruct st0. }
  destruct (command module) as [c|].
  - rewrite Hcommand. rewrite (bind_ret _ _ _ _ _ (Hsend _)). cbn.
    by rewrite <- app_assoc.
  - rewrite (bind_ret _ _ _ _ _ (Hsend _)). cbn. by rewrite <- app_assoc.
Qed.

Lemma missing_commands_file_is_ignored_witness :
  capture Cases.index_only_world Cases.from_commands_file
    (mkLocals "cisco_ios" 22 1 1) Sample.start
  = (Ret (PStr "", None),
     mkState [] [EvConnect "cisco_ios" (Some "10.0.0.1") 22%Z; EvIsFile "commands.txt"]).
Proof.
  apply (missing_commands_file_is_ignored Cases.index_only_world
           Cases.from_commands_file (mkLocals "cisco_ios" 22 1 1) Sample.start
           "commands.txt" tt);
    reflexivity.
Defined.

(** ** The raw file of an offline run *)

(** X17: offline with templates in use, a raw file that is no file ends the
    run in [fail_json] right after the two file checks: nothing is opened
    and the library is not called. *)
Theorem missing_raw_file_fails lib w module st f :
  HAS_TEXTFSM w = true ->
  connection module = "offline" ->
  file module = Some f ->
  f <> "" ->
  use_templates module = true ->
  isfile w (template_dir module +:+ "/" +:+ index_file module) = true ->
  isfile w f = false ->
  numbers_readable module ->
  main lib w module st =
    (Exit (FailJson "could not read raw text file"),
     mkState (heap st)
       (trace st ++ [EvIsFile (template_dir module +:+ "/" +:+ index_file module);
                     EvIsFile f])).
Proof.
  intros Htf Hoff Hfile Hf Huse Hindex Hmissing Hnum.
  assert (truthy_str (file module) = true) as Hgiven.
  { rewrite Hfile. by apply truthy_text. }
  destruct (validate_offline w module st Htf Hoff Hgiven Hnum) as (loc & Hval).
  unfold main. rewrite (bind_ret _ _ _ _ _ Hval).
  apply bind_exit.
  unfold check_templates. rewrite Huse, Hfile.
  assert (forall st', when (Str.endswith (template_dir module) "/")
            (_ ← mret (Str.rstrip "/" (template_dir module)); mret tt) st'
          = (Ret tt, st')) as Hpure.
  { intros st'. by destruct (Str.endswith _ _). }
  rewrite (bind_ret _ _ _ _ _ (Hpure st)).
  rewrite Hfile in Hgiven. rewrite Hgiven.
  unfold when at 1, os_path_isfile.
  repeat (rewrite bind_run; cbn). rewrite Hindex. cbn.
  repeat (rewrite bind_run; cbn). rewrite Hmissing. cbn.
  by rewrite <- app_assoc.
Qed.

Lemma missing_raw_file_fails_witness :
  main (Index.library String.prefix Sample.index Sample.one_vlan)
    Cases.index_only_world Cases.offline_with_devices Sample.start
  = (Exit (FailJson "could not read raw text file"),
     mkState [] [EvIsFile "templates/index"; EvIsFile "vlan.txt"]).
Proof.
  apply (missing_raw_file_fails
           (Index.library String.prefix Sample.index Sample.one_vlan)
           Cases.index_only_world Cases.offline_with_devices Sample.start "vlan.txt");
    try reflexivity.
  - discriminate.
  - by apply (numbers_readable_plain _ 1%Z 1%Z).
Defined.

(** X18: with templates off the raw file is not checked beforehand: when it
    cannot be read, the exception of the read itself leaves [main], and
    there is no [fail_json]. *)
Theorem unchecked_raw_file_raises lib w module st f e :
  HAS_TEXTFSM w = true ->
  connection module = "offline" ->
  file module = Some f ->
  f <> "" ->
  use_templates module = false ->
  file_read w f = Err e ->
  numbers_readable module ->
  main lib w module st =
    (Raise e, mkState (heap st) (trace st ++ [EvOpen f "r"])).
Proof.
  intros Htf Hoff Hfile Hf Huse Hread Hnum.
  assert (truthy_str (file module) = true) as Hgiven.
  { rewrite Hfile. by apply truthy_text. }
  destruct (validate_offline w module st Htf Hoff Hgiven Hnum) as (loc & Hval).
  unfold main. rewrite (bind_ret _ _ _ _ _ Hval).
  assert (check_templates w module st = (Ret tt, st)) as Hchk.
  { unfold check_templates. rewrite Huse.
    by destruct (Str.endswith (template_dir module) "/"). }
  rewrite (bind_ret _ _ _ _ _ Hchk).
  apply bind_raise.
  unfold capture, open. rewrite Hoff, Hfile.
  change (str_in "offline" ["ssh"; "netmiko_ssh"; "netmiko_telnet"; "telnet"])
    with false.
  cbn [String.eqb Ascii.eqb Bool.eqb].
  repeat (rewrite bind_run; cbn). rewrite Hread. reflexivity.
Qed.

Lemma unchecked_raw_file_raises_witness :
  main (Index.library String.prefix Sample.index Sample.one_vlan)
    Cases.bare_world Cases.offline_raw Sample.start
  = (Raise IOError, mkState [] [EvOpen "vlan.txt" "r"]).
Proof.
  apply (unchecked_raw_file_raises
           (Index.library String.prefix Sample.index Sample.one_vlan)
           Cases.bare_world Cases.offline_raw Sample.start "vlan.txt" IOError);
    try reflexivity.
  - discriminate.
  - by apply (numbers_readable_plain _ 1%Z 1%Z).
Defined.

(** ** A netmiko run without templates *)

(** X19: a netmiko run with a command and templates off, once past the
    checks on the parameters: the session is opened on the device type and
    port the checks chose, [enable] is called exactly when a secret is
    given, the command is sent once, and what the device printed comes back
    alone and unchanged in [response]; no file is looked for. *)
Theorem netmiko_raw_run lib w module st loc c out :
  validate w module st = (Ret loc, st) ->
  str_in (connection module) netmiko_connections = true ->
  use_templates module = false ->
  HAS_NETMIKO w = true ->
  ConnectHandler w (loc_device_type loc) (host module) (loc_port loc)
    (username module) (password module) (secret module) (use_keys module)
    (key_file module) (loc_global_delay_factor loc)
    = Ok tt ->
  (truthy_str (secret module) = true -> enable w = Ok tt) ->
  command module = Some c ->
  c <> "" ->
  send_command_timing w c (loc_delay loc) 5000 = Ok out ->
  out <> "" ->
  local_file module = None ->
  main lib w module st =
    (Exit (ExitJson (<["response" := PList [PStr out]]> empty_results)),
     mkState (heap st)
       (trace st ++ [EvConnect (loc_device_type loc) (host module) (loc_port loc)]
                 ++ (if truthy_str (secret module) then [EvEnable] else [])
                 ++ [EvSendCommand c])).
Proof.
  intros Hval Hconn Huse Hnet Hok Henable Hcommand Hc Hsend Hout Hlocal.
  unfold netmiko_connections in Hconn.
  unfold main. rewrite (bind_ret _ _ _ _ _ Hval).
  assert (check_templates w module st = (Ret tt, st)) as Hchk.
  { unfold check_templates. rewrite Huse.
    by destruct (Str.endswith (template_dir module) "/"). }
  rewrite (bind_ret _ _ _ _ _ Hchk).
  assert (capture w module loc st =
            (Ret (PStr out, None),
             mkState (heap st)
               (trace st ++ [EvConnect (loc_device_type loc) (host module) (loc_port loc)]
                  ++ (if truthy_str (secret module) then [EvEnable] else [])
                  ++ [EvSendCommand c]))) as Hcap.
  { unfold capture. rewrite Hconn, Hnet, Hcommand, (truthy_text c Hc : truthy_str (Some c) = true).
    unfold when at 1. rewrite (bind_ret _ _ st tt st) by reflexivity.
    rewrite bind_run. cbn [log]. rewrite bind_run, Hok. cbn [lift].
    unfold mret at 1, M_ret at 1.
    destruct (truthy_str (secret module)) eqn:Hsecret.
    - rewrite (Henable eq_refl). repeat (rewrite bind_run; cbn).
      rewrite Hsend. cbn. by rewrite <- !app_assoc.
    - repeat (rewrite bind_run; cbn). rewrite Hsend. cbn. by rewrite <- !app_assoc. }
  rewrite (bind_ret _ _ _ _ _ Hcap).
  unfold save_local. rewrite Hlocal.
  rewrite (bind_ret _ _ _ tt _) by reflexivity.
  unfold respond. rewrite Huse, (truthy_text out Hout). reflexivity.
Qed.

Lemma netmiko_raw_run_witness :
  main (Index.library String.prefix Sample.index Sample.one_vlan)
    Cases.bare_world Cases.telnet_raw Sample.start
  = (Exit (ExitJson (<["response" := PList [PStr "1 default active"]]> empty_results)),
     mkState [] [EvConnect "cisco_ios_telnet" (Some "10.0.0.1") 23%Z;
                 EvSendCommand "show vlan"]).
Proof.
  apply (netmiko_raw_run
           (Index.library String.prefix Sample.index Sample.one_vlan)
           Cases.bare_world Cases.telnet_raw Sample.start
           (mkLocals "cisco_ios_telnet" 23 1 1) "show vlan" "1 default active");
    try reflexivity; discriminate.
Defined.

(** ** Numbers that cannot be read *)

Lemma int_error r e : int r = Err e -> e = ValueError.
Proof.
  destruct r as [z|s0]; cbn; [discriminate|].
  destruct (Int.of_string s0); intros H; by simplify_eq.
Qed.

(** X20: with TextFSM installed, a [delay] or a [global_delay_factor] that
    [int] cannot read ends [main] in a [ValueError] before any check on the
    connection: no [fail_json], and nothing touched. *)
Theorem unreadable_number_raises lib w module st e :
  HAS_TEXTFSM w = true ->
  int (delay module) = Err e \/
  ((exists d, int (delay module) = Ok d) /\ int (global_delay_factor module) = Err e) ->
  main lib w module st = (Raise ValueError, st).
Proof.
  intros Htf Hbad. unfold main. apply bind_raise.
  unfold validate, when. rewrite Htf. cbn [negb].
  rewrite (bind_ret _ _ st tt st) by reflexivity.
  destruct Hbad as [Hd|[[d Hd] Hg]].
  - rewrite Hd, (int_error _ _ Hd). reflexivity.
  - rewrite Hd, Hg, (int_error _ _ Hg). reflexivity.
Qed.

Lemma unreadable_number_raises_witness :
  main (Index.library String.prefix Sample.index Sample.one_vlan)
    (Sample.offline_world "1 default active") Cases.bad_delay Sample.start
  = (Raise ValueError, Sample.start).
Proof.
  apply (unreadable_number_raises _ _ _ _ ValueError); [reflexivity|].
  left. reflexivity.
Defined.
